(** * Marimba: plugin loading and command dispatch

    A shallow embedding of the dispatch core of Marimba:

    - [marimba/wrappers/project.py]: [get_merged_keyword_args],
      [ProjectWrapper.run_command], [ProjectWrapper.compose],
      [ProjectWrapper.update_pipelines];
    - [marimba/core/wrappers/pipeline.py]: [PipelineWrapper.save_config],
      [PipelineWrapper.get_pipeline_class];
    - [marimba/core/parallel/pipeline_loader.py]: [load_pipeline_instance].

    Python dictionaries keep insertion order and the loops of the source
    iterate over [dict.items()], so a dictionary is an association list
    with the update-in-place-or-append behaviour of [d[k] = v].  Effects
    (the process-wide [sys.path], the plugin's own side effects, logging)
    are threaded through explicit state; a raised exception is the [inl]
    branch of a sum and leaves the state reached so far in place. *)

From Stdlib Require Import String Ascii List Bool Arith ZArith Lia.
Import ListNotations.
Local Open Scope list_scope.
Local Open Scope string_scope.

(* ===================================================================== *)
(** ** Python data *)
(* ===================================================================== *)

Module Py.

(** Scalar values that appear in configurations and keyword arguments. *)
Inductive pyval : Type :=
| PyNone
| PyBool (b : bool)
| PyInt (z : Z)
| PyStr (s : string).

(** The exception classes that the modelled code raises or lets through.
    [KeyboardInterrupt] and [SystemExit] derive from [BaseException] only,
    so [except Exception] does not catch them. *)
Inductive exn_class : Type :=
| FileNotFoundError
| ImportError
| RunCommandError
| NoSuchPipelineError
| NoSuchDeploymentError
| AttributeError
| ValueError
| TypeError
| OtherException
| KeyboardInterrupt
| SystemExit.

Record exn : Type := Raise { exn_kind : exn_class; exn_msg : string }.

Definition is_Exception (e : exn) : bool :=
  match exn_kind e with
  | KeyboardInterrupt | SystemExit => false
  | _ => true
  end.

(** A call either raises or returns. *)
Definition result (A : Type) : Type := (exn + A)%type.

(** Log levels used by the source. *)
Inductive level : Type := INFO | WARNING | ERROR.

Record LogRecord : Type := Log { log_level : level; log_msg : string }.

(** The double-quote character, for the f-strings of the source. *)
Definition dquote : string := String (ascii_of_nat 34) EmptyString.

Definition quoted (s : string) : string := dquote ++ s ++ dquote.

(** *** Dictionaries *)

Definition dict (V : Type) : Type := list (string * V).

Section Dict.
Context {V : Type}.

(** [d.get(k, None)] *)
Fixpoint dict_get (k : string) (d : dict V) : option V :=
  match d with
  | [] => None
  | (k', v) :: rest => if String.eqb k k' then Some v else dict_get k rest
  end.

(** [d[k] = v]: an existing key keeps its position, a new key goes last. *)
Fixpoint dict_set (k : string) (v : V) (d : dict V) : dict V :=
  match d with
  | [] => [(k, v)]
  | (k', v') :: rest =>
      if String.eqb k k' then (k', v) :: rest
      else (k', v') :: dict_set k v rest
  end.

Definition dict_keys (d : dict V) : list string := map fst d.

(** [{**d1, **d2}] *)
Definition dict_merge (d1 d2 : dict V) : dict V :=
  fold_left (fun acc kv => dict_set (fst kv) (snd kv) acc) d2 d1.

End Dict.

(** *** Strings *)

(** [s.split(sep)] for a one-character separator: every occurrence of
    [sep] cuts, empty pieces are kept. *)
Fixpoint str_split (sep : ascii) (s : string) : list string :=
  match s with
  | EmptyString => [EmptyString]
  | String c rest =>
      if Ascii.eqb c sep then EmptyString :: str_split sep rest
      else match str_split sep rest with
           | [] => [String c EmptyString]
           | piece :: pieces => String c piece :: pieces
           end
  end.

(** [s.count(sep)] *)
Fixpoint str_count (sep : ascii) (s : string) : nat :=
  match s with
  | EmptyString => 0
  | String c rest => (if Ascii.eqb c sep then 1 else 0) + str_count sep rest
  end.

(** [s.partition(sep)], keeping the text before and after the first
    [sep]; without a separator everything is before. *)
Fixpoint str_partition (sep : ascii) (s : string) : string * string :=
  match s with
  | EmptyString => (EmptyString, EmptyString)
  | String c rest =>
      if Ascii.eqb c sep then (EmptyString, rest)
      else let '(before, after) := str_partition sep rest in
           (String c before, after)
  end.

(** [a, b = parts] *)
Definition unpack2 (parts : list string) : result (string * string) :=
  match parts with
  | [a; b] => inr (a, b)
  | [] | [_] =>
      inl (Raise ValueError "not enough values to unpack (expected 2)")
  | _ => inl (Raise ValueError "too many values to unpack (expected 2)")
  end.

(** [sep.join(pieces)] *)
Fixpoint str_join (sep : string) (pieces : list string) : string :=
  match pieces with
  | [] => EmptyString
  | [piece] => piece
  | piece :: rest => piece ++ sep ++ str_join sep rest
  end.

(** *** Paths ([pathlib.PurePosixPath], as text) *)

Definition Path : Type := string.

(** [p / q] *)
Definition path_join (p : Path) (q : string) : Path := p ++ "/" ++ q.

(** [p.name]: the final component. *)
Definition path_name (p : Path) : string := last (str_split "/" p) EmptyString.

(** [p.stem]: the final component without its last suffix.  With
    [i = name.rfind('.')], the suffix is cut only when
    [0 < i < len(name) - 1]. *)
Definition path_stem (p : Path) : string :=
  let name := path_name p in
  let pieces := str_split "." name in
  let front := str_join "." (removelast pieces) in
  if Nat.leb 2 (length pieces)
     && negb (String.eqb front EmptyString)
     && negb (String.eqb (last pieces EmptyString) EmptyString)
  then front else name.

(** [repr] of a list of paths, as an f-string prints it. *)
Definition repr_paths (l : list Path) : string :=
  "[" ++ str_join ", " (map (fun p => "PosixPath('" ++ p ++ "')") l) ++ "]".

(** *** Effects

    A computation reads and writes a state of type [S] and either raises
    or returns; the state reached when an exception is raised is kept, as
    side effects are not rolled back. *)

Definition M (S A : Type) : Type := S -> result A * S.

Definition ret {S A : Type} (a : A) : M S A := fun s => (inr a, s).

Definition raise {S A : Type} (e : exn) : M S A := fun s => (inl e, s).

Definition bind {S A B : Type} (c : M S A) (k : A -> M S B) : M S B :=
  fun s =>
    match c s with
    | (inr a, s') => k a s'
    | (inl e, s') => (inl e, s')
    end.

(** [try: c except Exception as e: handler(e)] *)
Definition try_except {S A : Type} (c : M S A) (handler : exn -> M S A)
  : M S A :=
  fun s =>
    match c s with
    | (inr a, s') => (inr a, s')
    | (inl e, s') => if is_Exception e then handler e s' else (inl e, s')
    end.

Definition modify {S : Type} (f : S -> S) : M S unit :=
  fun s => (inr tt, f s).

Definition gets {S A : Type} (f : S -> A) : M S A :=
  fun s => (inr (f s), s).

End Py.

Import Py.

Declare Scope py_scope.
Delimit Scope py_scope with py.
Notation "x <- c ;; k" := (bind c (fun x => k))
  (at level 100, c at next level, right associativity) : py_scope.
Notation "' pat <- c ;; k" := (bind c (fun x => match x with pat => k end))
  (at level 100, pat pattern, c at next level, right associativity) : py_scope.
Notation "c ;; k" := (bind c (fun _ => k))
  (at level 100, right associativity) : py_scope.
Local Open Scope py_scope.

(* ===================================================================== *)
(** ** [get_merged_keyword_args] (wrappers/project.py) *)
(* ===================================================================== *)

Module MergedArgs.

Definition invalid_extra_warning (arg : string) : LogRecord :=
  Log WARNING ("Invalid extra argument provided: " ++ quoted arg).

(** The [for arg in extra_args] loop; [extra_dict] and the warnings
    emitted so far are carried along. *)
Fixpoint extra_loop (extra_args : list string)
    (extra_dict : dict pyval) (warnings : list LogRecord)
  : result (dict pyval) * list LogRecord :=
  match extra_args with
  | [] => (inr extra_dict, warnings)
  | arg :: rest =>
      let parts := str_split "=" arg in
      if Nat.eqb (length parts) 2 then
        match unpack2 parts with
        | inr (key, value) =>
            extra_loop rest (dict_set key (PyStr value) extra_dict) warnings
        | inl e => (inl e, warnings)
        end
      else
        extra_loop rest extra_dict
          (warnings ++ [invalid_extra_warning arg])%list
  end.

(** [extra_args] is [Optional[List[str]]]; [if extra_args:] skips the loop
    for [None] and for the empty list. *)
Definition truthy_list {A : Type} (l : option (list A)) : bool :=
  match l with
  | None | Some [] => false
  | Some (_ :: _) => true
  end.

Definition get_merged_keyword_args
    (kwargs : dict pyval) (extra_args : option (list string))
  : result (dict pyval) * list LogRecord :=
  let '(extra_dict, warnings) :=
    if truthy_list extra_args
    then extra_loop (match extra_args with Some l => l | None => [] end) [] []
    else (inr [], [])
  in
  match extra_dict with
  | inr extra_dict => (inr (dict_merge kwargs extra_dict), warnings)
  | inl e => (inl e, warnings)
  end.

(** *** The merge as the specification words it

    An entry is well formed when it contains exactly one ['=']; a well
    formed entry is cut at its first ['='] into key and value; every other
    entry is dropped with a warning; the merge itself cannot fail. *)

Definition exactly_one_eq (arg : string) : bool :=
  Nat.eqb (str_count "=" arg) 1.

Definition spec_extra_pairs (extra_args : list string)
  : list (string * pyval) :=
  map (fun arg => let '(k, v) := str_partition "=" arg in (k, PyStr v))
      (filter exactly_one_eq extra_args).

Definition spec_warnings (extra_args : list string) : list LogRecord :=
  map invalid_extra_warning
      (filter (fun arg => negb (exactly_one_eq arg)) extra_args).

Definition spec_merged_keyword_args
    (kwargs : dict pyval) (extra_args : option (list string))
  : result (dict pyval) * list LogRecord :=
  let l := match extra_args with Some l => l | None => [] end in
  (inr (dict_merge kwargs (dict_merge [] (spec_extra_pairs l))),
   spec_warnings l).

End MergedArgs.

(* ===================================================================== *)
(** ** Dynamic plugin loading
       (core/parallel/pipeline_loader.py, core/wrappers/pipeline.py) *)
(* ===================================================================== *)

Module Loader.

Definition Config : Type := dict pyval.

(** A class object.  [class_id] is the identity that [is] compares;
    [derives_BasePipeline] is [issubclass(obj, BasePipeline)];
    [instantiable] is false while an abstract method ([_compose]) is
    not overridden. *)
Record PyClass : Type := {
  class_name : string;
  class_id : nat;
  derives_BasePipeline : bool;
  instantiable : bool
}.

(** [marimba.core.pipeline.BasePipeline], an [ABC] with abstract
    [_compose]. *)
Definition BasePipeline : PyClass :=
  {| class_name := "BasePipeline"; class_id := 0;
     derives_BasePipeline := true; instantiable := false |}.

(** What a module's [__dict__] can hold. *)
Inductive PyObj : Type :=
| ObjClass (c : PyClass)
| ObjValue (v : pyval).

(** [importlib.machinery.ModuleSpec]; [spec_has_loader] is
    [spec.loader is not None]. *)
Record ModuleSpec : Type := {
  spec_name : string;
  spec_origin : Path;
  spec_has_loader : bool
}.

(** The plugin instance built by [pipeline_class(repo_dir, config=...,
    dry_run=...)], with the three attributes [BasePipeline.__init__]
    stores. *)
Record PipelineInstance : Type := {
  inst_class : PyClass;
  inst_root_path : Path;
  inst_config : Config;
  inst_dry_run : bool
}.

(** The interpreter and the file system, as far as the loader touches
    them.  [FS] is the state of the disk.  Executing the plugin module is
    arbitrary code: it may change the disk and [sys.path], and it either
    raises or leaves the module's [__dict__].  [util_load_config] and
    [util_save_config] are [marimba.core.utils.config.load_config] and
    [save_config]. *)
Record Env (FS : Type) : Type := {
  glob_pipeline_py : Path -> FS -> list Path;
  absolute : Path -> Path;
  spec_from_file_location : string -> Path -> FS -> option ModuleSpec;
  exec_module :
    ModuleSpec -> FS -> list Path -> result (dict PyObj) * (FS * list Path);
  util_load_config : Path -> FS -> result Config;
  util_save_config : Path -> Config -> FS -> result unit * FS
}.
Arguments glob_pipeline_py {FS}.
Arguments absolute {FS}.
Arguments spec_from_file_location {FS}.
Arguments exec_module {FS}.
Arguments util_load_config {FS}.
Arguments util_save_config {FS}.

(** Instrumentation: every recursive scan of a repository, every module
    execution and every configuration write is recorded. *)
Inductive Event : Type :=
| EvScan (repo_dir : Path)
| EvExecModule (origin : Path)
| EvWriteConfig (path : Path) (config : Config).

Record State (FS : Type) : Type := {
  fs : FS;
  sys_path : list Path;
  events : list Event
}.
Arguments fs {FS}.
Arguments sys_path {FS}.
Arguments events {FS}.
Arguments Build_State {FS}.

Section WithEnv.
Context {FS : Type} (E : Env FS).

Local Abbreviation L := (M (State FS)).

Definition record (ev : Event) : L unit :=
  modify (fun st =>
    Build_State (fs st) (sys_path st) (events st ++ [ev])%list).

(** [sys.path.insert(0, p)] *)
Definition sys_path_insert0 (p : Path) : L unit :=
  modify (fun st => Build_State (fs st) (p :: sys_path st) (events st)).

(** [sys.path.pop(0)] *)
Definition sys_path_pop0 : L unit :=
  fun st =>
    match sys_path st with
    | [] => (inl (Raise OtherException "pop from empty list"), st)
    | _ :: rest => (inr tt, Build_State (fs st) rest (events st))
    end.

(** [list(repo_dir.glob("**/*.pipeline.py"))] *)
Definition scan (repo_dir : Path) : L (list Path) :=
  record (EvScan repo_dir) ;;
  gets (fun st => glob_pipeline_py E repo_dir (fs st)).

(** [pipeline_module_spec.loader.exec_module(pipeline_module)] *)
Definition run_exec_module (spec : ModuleSpec) : L (dict PyObj) :=
  record (EvExecModule (spec_origin spec)) ;;
  fun st =>
    let '(r, (fs', sys_path')) := exec_module E spec (fs st) (sys_path st) in
    (r, Build_State fs' sys_path' (events st)).

Definition no_implementation_msg (repo_dir : Path) : string :=
  "No pipeline implementation found in " ++ quoted repo_dir ++ ".".

Definition multiple_implementations_msg
    (repo_dir : Path) (paths : list Path) : string :=
  "Multiple pipeline implementations found in " ++ quoted repo_dir
  ++ ": " ++ repr_paths paths ++ ".".

(** The statements shared word for word by [load_pipeline_instance]
    (pipeline_loader.py, lines 46 to 78) and
    [PipelineWrapper.get_pipeline_class] (pipeline.py, lines 256 to
    291): find the one plugin-definition file, build its module spec,
    put the repository first on [sys.path], execute the module, take
    the repository off [sys.path] again.  Returns the module's
    [__dict__]. *)
Definition import_pipeline_module (repo_dir : Path) : L (dict PyObj) :=
  pipeline_module_paths <- scan repo_dir ;;
  match pipeline_module_paths with
  | [] => raise (Raise FileNotFoundError (no_implementation_msg repo_dir))
  | _ :: _ :: _ =>
      raise (Raise FileNotFoundError
               (multiple_implementations_msg repo_dir pipeline_module_paths))
  | [pipeline_module_path] =>
      let pipeline_module_name := path_stem pipeline_module_path in
      pipeline_module_spec <-
        gets (fun st =>
                spec_from_file_location E pipeline_module_name
                  (absolute E pipeline_module_path) (fs st)) ;;
      match pipeline_module_spec with
      | None =>
          raise (Raise ImportError
                   ("Could not load spec for " ++ pipeline_module_name
                    ++ " from " ++ pipeline_module_path))
      | Some pipeline_module_spec =>
          sys_path_insert0 (absolute E repo_dir) ;;
          if negb (spec_has_loader pipeline_module_spec) then
            raise (Raise ImportError
                     ("Could not find loader for " ++ pipeline_module_name
                      ++ " from " ++ pipeline_module_path))
          else
            module_dict <- run_exec_module pipeline_module_spec ;;
            sys_path_pop0 ;;
            ret module_dict
      end
  end.

(** [isinstance(obj, type) and issubclass(obj, BasePipeline) and obj is
    not BasePipeline] *)
Definition is_pipeline_class (obj : PyObj) : bool :=
  match obj with
  | ObjClass c =>
      derives_BasePipeline c
      && negb (Nat.eqb (class_id c) (class_id BasePipeline))
  | ObjValue _ => false
  end.

(** The [for _, obj in pipeline_module.__dict__.items()] loop with its
    [break]: the first qualifying class, if any. *)
Fixpoint find_pipeline_class (items : dict PyObj) : option PyClass :=
  match items with
  | [] => None
  | (_, obj) :: rest =>
      if is_pipeline_class obj then
        match obj with
        | ObjClass c => Some c
        | ObjValue _ => find_pipeline_class rest
        end
      else find_pipeline_class rest
  end.

(** [pipeline_class(repo_dir, config=..., dry_run=...)] for a class that
    inherits [BasePipeline.__init__] (core/pipeline.py), which stores its
    three arguments; a class with an abstract method left cannot be
    instantiated.  A constructor that a plugin class defines for itself
    is code of the plugin and is not described here. *)
Definition instantiate (c : PyClass) (root_path : Path) (config : Config)
    (dry_run : bool) : L PipelineInstance :=
  if instantiable c then
    ret {| inst_class := c; inst_root_path := root_path;
           inst_config := config; inst_dry_run := dry_run |}
  else
    raise (Raise TypeError
             ("Can't instantiate abstract class " ++ class_name c)).

Definition load_config_at (config_path : Path) : L Config :=
  fun st => (util_load_config E config_path (fs st), st).

(** [load_pipeline_instance] (pipeline_loader.py) *)
Definition load_pipeline_instance
    (repo_dir config_path : Path) (dry_run : bool) : L PipelineInstance :=
  module_dict <- import_pipeline_module repo_dir ;;
  match find_pipeline_class module_dict with
  | None =>
      raise (Raise ImportError
               "Pipeline class has not been set or could not be found.")
  | Some pipeline_class =>
      config <- load_config_at config_path ;;
      instantiate pipeline_class repo_dir config dry_run
  end.

(** *** [PipelineWrapper] (core/wrappers/pipeline.py) *)

(** The attributes of a wrapper that the modelled methods read or
    write; [pipeline_class] is [self._pipeline_class]. *)
Record PipelineWrapper : Type := {
  root_dir : Path;
  dry_run : bool;
  pipeline_class : option PyClass
}.

Definition repo_dir (self : PipelineWrapper) : Path :=
  path_join (root_dir self) "repo".

Definition config_path (self : PipelineWrapper) : Path :=
  path_join (root_dir self) "pipeline.yml".

Definition set_pipeline_class (self : PipelineWrapper) (c : PyClass)
  : PipelineWrapper :=
  {| root_dir := root_dir self; dry_run := dry_run self;
     pipeline_class := Some c |}.

(** [PipelineWrapper.get_pipeline_class]; the wrapper is a mutable
    object, so the wrapper as the call leaves it is returned next to
    the method's value. *)
Definition get_pipeline_class (self : PipelineWrapper)
  : L (PipelineWrapper * option PyClass) :=
  match pipeline_class self with
  | None =>
      module_dict <- import_pipeline_module (repo_dir self) ;;
      let self' :=
        match find_pipeline_class module_dict with
        | Some obj => set_pipeline_class self obj
        | None => self
        end in
      ret (self', pipeline_class self')
  | Some _ => ret (self, pipeline_class self)
  end.

(** [n] further calls on the same wrapper, one after the other; the
    values they return are collected. *)
Fixpoint get_pipeline_class_times (n : nat) (self : PipelineWrapper)
  : L (PipelineWrapper * list (option PyClass)) :=
  match n with
  | O => ret (self, [])
  | S n' =>
      '(self1, c) <- get_pipeline_class self ;;
      '(self2, cs) <- get_pipeline_class_times n' self1 ;;
      ret (self2, c :: cs)
  end.

(** [PipelineWrapper.load_config] *)
Definition load_config (self : PipelineWrapper) : L Config :=
  load_config_at (config_path self).

(** [bool(config)] for [config : Optional[Dict]] *)
Definition truthy_config (config : option Config) : bool :=
  match config with
  | None | Some [] => false
  | Some (_ :: _) => true
  end.

(** [PipelineWrapper.save_config] *)
Definition save_config (self : PipelineWrapper) (config : option Config)
  : L unit :=
  if truthy_config config then
    let cfg := match config with Some cfg => cfg | None => [] end in
    record (EvWriteConfig (config_path self) cfg) ;;
    fun st =>
      let '(r, fs') := util_save_config E (config_path self) cfg (fs st) in
      (r, Build_State fs' (sys_path st) (events st))
  else ret tt.

End WithEnv.

End Loader.

(* ===================================================================== *)
(** ** [ProjectWrapper] (wrappers/project.py) *)
(* ===================================================================== *)

Module Project.

Import MergedArgs.

Definition Config : Type := dict pyval.

(** The collaborators of [ProjectWrapper] that live in other modules
    ([marimba.wrappers.pipeline], [marimba.wrappers.deployment]) or in
    the plugin itself.  [World] is whatever the plugin and git can
    change: each call that has side effects maps a world to a world.
    [hasattr] and [call_method] are the reflective lookup and call of a
    method of a plugin instance by name. *)
Record Externals (World PW DW Pipeline CR : Type) : Type := {
  load_pipeline : PW -> World -> result Pipeline * World;
  update : PW -> World -> result unit * World;
  get_pipeline_data_dir : DW -> string -> Path;
  load_config : DW -> World -> result Config;
  hasattr : Pipeline -> string -> bool;
  call_method :
    Pipeline -> string -> Path -> Config -> dict pyval -> World ->
    result pyval * World;
  run_compose :
    Pipeline -> list Path -> list Config -> dict pyval -> World ->
    result CR * World
}.
Arguments load_pipeline {World PW DW Pipeline CR}.
Arguments update {World PW DW Pipeline CR}.
Arguments get_pipeline_data_dir {World PW DW Pipeline CR}.
Arguments load_config {World PW DW Pipeline CR}.
Arguments hasattr {World PW DW Pipeline CR}.
Arguments call_method {World PW DW Pipeline CR}.
Arguments run_compose {World PW DW Pipeline CR}.

(** Instrumentation: each call into a plugin operation or a pipeline
    update is recorded with what it was given (and, for a dispatched
    command, how it ended). *)
Inductive Event : Type :=
| EvInvoke (deployment pipeline command : string) (data_dir : Path)
           (config : Config) (kwargs : dict pyval) (outcome : result pyval)
| EvCompose (pipeline : string) (data_dirs : list Path)
            (configs : list Config) (kwargs : dict pyval)
| EvUpdate (pipeline : string).

Record State (World : Type) : Type := {
  world : World;
  invocations : list Event;
  log : list LogRecord
}.
Arguments world {World}.
Arguments invocations {World}.
Arguments log {World}.
Arguments Build_State {World}.

(** [self._pipeline_wrappers] and [self._deployment_wrappers] *)
Record ProjectWrapper (PW DW : Type) : Type := {
  pipeline_wrappers : dict PW;
  deployment_wrappers : dict DW
}.
Arguments pipeline_wrappers {PW DW}.
Arguments deployment_wrappers {PW DW}.

Section WithExternals.
Context {World PW DW Pipeline CR : Type}.
Context (X : Externals World PW DW Pipeline CR).

Local Abbreviation P := (M (State World)).

(** A collaborator that changes the world. *)
Definition effect {A : Type} (f : World -> result A * World) : P A :=
  fun st =>
    let '(r, w) := f (world st) in
    (r, Build_State w (invocations st) (log st)).

(** A collaborator that only reads it. *)
Definition query {A : Type} (f : World -> result A) : P A :=
  fun st => (f (world st), st).

Definition record (ev : Event) : P unit :=
  modify (fun st =>
    Build_State (world st) (invocations st ++ [ev])%list (log st)).

Definition emit (records : list LogRecord) : P unit :=
  modify (fun st =>
    Build_State (world st) (invocations st) (log st ++ records)%list).

(** [get_merged_keyword_args(kwargs, extra_args, self.logger)] *)
Definition merged_keyword_args (kwargs : dict pyval)
    (extra_args : option (list string)) : P (dict pyval) :=
  let '(r, warnings) := get_merged_keyword_args kwargs extra_args in
  emit warnings ;;
  match r with
  | inr merged => ret merged
  | inl e => raise e
  end.

Definition no_instrument_msg (pipeline_name : string) : string :=
  "Instrument " ++ quoted pipeline_name
  ++ " does not exist within the project.".

Definition no_deployment_msg (deployment_name : string) : string :=
  "Deployment " ++ quoted deployment_name
  ++ " does not exist within the project.".

Definition no_command_msg (command_name pipeline_name : string) : string :=
  "Command " ++ quoted command_name
  ++ " does not exist for instrument " ++ quoted pipeline_name ++ ".".

(** The dictionary comprehension
    [{name: wrapper.load_pipeline() for name, wrapper in ....items()}] *)
Fixpoint load_pipelines (items : dict PW) (pipeline_to_run : dict Pipeline)
  : P (dict Pipeline) :=
  match items with
  | [] => ret pipeline_to_run
  | (pipeline_name, pipeline_wrapper) :: rest =>
      pipeline <- effect (load_pipeline X pipeline_wrapper) ;;
      load_pipelines rest (dict_set pipeline_name pipeline pipeline_to_run)
  end.

(** The [hasattr] loop *)
Fixpoint check_command_exists (command_name : string)
    (items : dict Pipeline) : P unit :=
  match items with
  | [] => ret tt
  | (run_pipeline_name, run_pipeline) :: rest =>
      if negb (hasattr X run_pipeline command_name) then
        raise (Raise RunCommandError
                 (no_command_msg command_name run_pipeline_name))
      else check_command_exists command_name rest
  end.

(** [method = getattr(run_pipeline, command_name)] followed by
    [method(data_dir, config, **merged_kwargs)] *)
Definition invoke (deployment pipeline_name : string)
    (run_pipeline : Pipeline) (command_name : string) (data_dir : Path)
    (config : Config) (merged_kwargs : dict pyval) : P pyval :=
  if hasattr X run_pipeline command_name then
    fun st =>
      let '(r, w) :=
        call_method X run_pipeline command_name data_dir config
          merged_kwargs (world st) in
      (r, Build_State w
            (invocations st ++
             [EvInvoke deployment pipeline_name command_name data_dir
                config merged_kwargs r])%list
            (log st))
  else
    raise (Raise AttributeError
             ("object has no attribute '" ++ command_name ++ "'")).

(** The inner loop over [pipeline_to_run.items()] *)
Fixpoint invoke_pipelines (command_name : string)
    (merged_kwargs : dict pyval) (run_deployment_name : string)
    (run_deployment_wrapper : DW) (items : dict Pipeline)
    (results_by_pipeline : dict pyval) : P (dict pyval) :=
  match items with
  | [] => ret results_by_pipeline
  | (run_pipeline_name, run_pipeline) :: rest =>
      let pipeline_deployment_data_dir :=
        get_pipeline_data_dir X run_deployment_wrapper run_pipeline_name in
      pipeline_deployment_config <-
        query (load_config X run_deployment_wrapper) ;;
      value <-
        invoke run_deployment_name run_pipeline_name run_pipeline
          command_name pipeline_deployment_data_dir
          pipeline_deployment_config merged_kwargs ;;
      invoke_pipelines command_name merged_kwargs run_deployment_name
        run_deployment_wrapper rest
        (dict_set run_pipeline_name value results_by_pipeline)
  end.

(** The outer loop over [deployment_wrappers_to_run.items()] *)
Fixpoint invoke_deployments (command_name : string)
    (merged_kwargs : dict pyval) (pipeline_to_run : dict Pipeline)
    (items : dict DW) (results_by_deployment : dict (dict pyval))
  : P (dict (dict pyval)) :=
  match items with
  | [] => ret results_by_deployment
  | (run_deployment_name, run_deployment_wrapper) :: rest =>
      results_by_pipeline <-
        invoke_pipelines command_name merged_kwargs run_deployment_name
          run_deployment_wrapper pipeline_to_run [] ;;
      invoke_deployments command_name merged_kwargs pipeline_to_run rest
        (dict_set run_deployment_name results_by_pipeline
           results_by_deployment)
  end.

(** [ProjectWrapper.run_command] *)
Definition run_command (self : ProjectWrapper PW DW)
    (command_name : string) (pipeline_name deployment_name : option string)
    (extra_args : option (list string)) (kwargs : dict pyval)
  : P (dict (dict pyval)) :=
  merged_kwargs <- merged_keyword_args kwargs extra_args ;;
  pipeline_wrapper <-
    match pipeline_name with
    | Some name =>
        match dict_get name (pipeline_wrappers self) with
        | None => raise (Raise RunCommandError (no_instrument_msg name))
        | Some wrapper => ret (Some wrapper)
        end
    | None => ret None
    end ;;
  deployment_wrapper <-
    match deployment_name with
    | Some name =>
        match dict_get name (deployment_wrappers self) with
        | None => raise (Raise RunCommandError (no_deployment_msg name))
        | Some wrapper => ret (Some wrapper)
        end
    | None => ret None
    end ;;
  let pipeline_wrappers_to_run :=
    match pipeline_name, pipeline_wrapper with
    | Some name, Some wrapper => [(name, wrapper)]
    | _, _ => pipeline_wrappers self
    end in
  let deployment_wrappers_to_run :=
    match deployment_name, deployment_wrapper with
    | Some name, Some wrapper => [(name, wrapper)]
    | _, _ => deployment_wrappers self
    end in
  pipeline_to_run <- load_pipelines pipeline_wrappers_to_run [] ;;
  check_command_exists command_name pipeline_to_run ;;
  invoke_deployments command_name merged_kwargs pipeline_to_run
    deployment_wrappers_to_run [].

(** The part of [run_command] that precedes the [hasattr] check: merge
    the arguments, resolve the targets, load one plugin instance per
    targeted pipeline.  It yields the three locals the rest of the
    method uses; [run_command] is this followed by the check and the
    dispatch. *)
Definition run_command_loaded (self : ProjectWrapper PW DW)
    (pipeline_name deployment_name : option string)
    (extra_args : option (list string)) (kwargs : dict pyval)
  : P (dict pyval * dict DW * dict Pipeline) :=
  merged_kwargs <- merged_keyword_args kwargs extra_args ;;
  pipeline_wrapper <-
    match pipeline_name with
    | Some name =>
        match dict_get name (pipeline_wrappers self) with
        | None => raise (Raise RunCommandError (no_instrument_msg name))
        | Some wrapper => ret (Some wrapper)
        end
    | None => ret None
    end ;;
  deployment_wrapper <-
    match deployment_name with
    | Some name =>
        match dict_get name (deployment_wrappers self) with
        | None => raise (Raise RunCommandError (no_deployment_msg name))
        | Some wrapper => ret (Some wrapper)
        end
    | None => ret None
    end ;;
  let pipeline_wrappers_to_run :=
    match pipeline_name, pipeline_wrapper with
    | Some name, Some wrapper => [(name, wrapper)]
    | _, _ => pipeline_wrappers self
    end in
  let deployment_wrappers_to_run :=
    match deployment_name, deployment_wrapper with
    | Some name, Some wrapper => [(name, wrapper)]
    | _, _ => deployment_wrappers self
    end in
  pipeline_to_run <- load_pipelines pipeline_wrappers_to_run [] ;;
  ret (merged_kwargs, deployment_wrappers_to_run, pipeline_to_run).

(** The [for deployment_name in deployment_names] loop of [compose] *)
Fixpoint get_deployment_wrappers (self : ProjectWrapper PW DW)
    (deployment_names : list string) (deployment_wrappers_acc : list DW)
  : P (list DW) :=
  match deployment_names with
  | [] => ret deployment_wrappers_acc
  | deployment_name :: rest =>
      match dict_get deployment_name (deployment_wrappers self) with
      | None => raise (Raise NoSuchDeploymentError deployment_name)
      | Some deployment_wrapper =>
          get_deployment_wrappers self rest
            (deployment_wrappers_acc ++ [deployment_wrapper])%list
      end
  end.

(** [[wrapper.load_config() for wrapper in deployment_wrappers]] *)
Fixpoint load_configs (wrappers : list DW) : P (list Config) :=
  match wrappers with
  | [] => ret []
  | wrapper :: rest =>
      config <- query (load_config X wrapper) ;;
      configs <- load_configs rest ;;
      ret (config :: configs)
  end.

(** [pipeline.run_compose(data_dirs, configs, **merged_kwargs)] *)
Definition call_run_compose (pipeline_name : string) (pipeline : Pipeline)
    (data_dirs : list Path) (configs : list Config)
    (merged_kwargs : dict pyval) : P CR :=
  record (EvCompose pipeline_name data_dirs configs merged_kwargs) ;;
  effect (run_compose X pipeline data_dirs configs merged_kwargs).

(** [ProjectWrapper.compose] *)
Definition compose (self : ProjectWrapper PW DW) (pipeline_name : string)
    (deployment_names : list string) (extra_args : option (list string))
    (kwargs : dict pyval) : P CR :=
  merged_kwargs <- merged_keyword_args kwargs extra_args ;;
  match dict_get pipeline_name (pipeline_wrappers self) with
  | None => raise (Raise NoSuchPipelineError pipeline_name)
  | Some pipeline_wrapper =>
      pipeline <- effect (load_pipeline X pipeline_wrapper) ;;
      wrappers <- get_deployment_wrappers self deployment_names [] ;;
      let deployment_data_dirs :=
        map (fun wrapper => get_pipeline_data_dir X wrapper pipeline_name)
            wrappers in
      deployment_configs <- load_configs wrappers ;;
      call_run_compose pipeline_name pipeline deployment_data_dirs
        deployment_configs merged_kwargs
  end.

Definition updating_msg (pipeline_name : string) : string :=
  "Updating instrument " ++ quoted pipeline_name.

Definition updated_msg (pipeline_name : string) : string :=
  "Successfully updated instrument " ++ quoted pipeline_name.

Definition update_failed_msg (pipeline_name : string) (e : exn) : string :=
  "Failed to update instrument " ++ quoted pipeline_name ++ ": "
  ++ exn_msg e.

(** The loop of [update_pipelines] over [self._pipeline_wrappers.items()] *)
Fixpoint update_loop (items : dict PW) : P unit :=
  match items with
  | [] => ret tt
  | (pipeline_name, pipeline_wrapper) :: rest =>
      emit [Log INFO (updating_msg pipeline_name)] ;;
      try_except
        (record (EvUpdate pipeline_name) ;;
         effect (update X pipeline_wrapper) ;;
         emit [Log INFO (updated_msg pipeline_name)])
        (fun e => emit [Log ERROR (update_failed_msg pipeline_name e)]) ;;
      update_loop rest
  end.

(** [ProjectWrapper.update_pipelines] *)
Definition update_pipelines (self : ProjectWrapper PW DW) : P unit :=
  update_loop (pipeline_wrappers self).

(** *** Reading the instrumentation *)

(** What each pipeline's [update()] does when the loop reaches it:
    [None] when it returns, [Some e] when it raises [e]. *)
Fixpoint update_outcomes (items : dict PW) (w : World)
  : list (option exn) :=
  match items with
  | [] => []
  | (_, pipeline_wrapper) :: rest =>
      let '(r, w') := update X pipeline_wrapper w in
      match r with
      | inl e => Some e :: update_outcomes rest w'
      | inr _ => None :: update_outcomes rest w'
      end
  end.

(** The two log records one iteration of the update loop writes. *)
Definition update_log_entries (item : string * option exn)
  : list LogRecord :=
  let '(pipeline_name, outcome) := item in
  [Log INFO (updating_msg pipeline_name);
   match outcome with
   | None => Log INFO (updated_msg pipeline_name)
   | Some e => Log ERROR (update_failed_msg pipeline_name e)
   end].

End WithExternals.


(** The pipelines whose update was attempted, in the order of the
    attempts. *)
Definition update_attempts (evs : list Event) : list string :=
  flat_map (fun ev =>
              match ev with
              | EvUpdate pipeline => [pipeline]
              | _ => []
              end) evs.




End Project.

(* ===================================================================== *)
(** ** A small installation to run the model on *)
(* ===================================================================== *)

Module Demo.

Import Loader.

(** A disk: the plugin-definition files a recursive scan finds, and the
    configuration files by path. *)
Record Disk : Type := {
  plugin_files : list Path;
  config_files : dict Config
}.

Definition CamPipeline : PyClass :=
  {| class_name := "CamPipeline"; class_id := 7;
     derives_BasePipeline := true; instantiable := true |}.

(** An interpreter in which executing the plugin module either raises
    [ImportError] (a missing dependency) or defines [CamPipeline]; module
    execution leaves the disk and [sys.path] as it found them. *)
Definition env (exec_raises : bool) : Env Disk :=
  {| glob_pipeline_py := fun _ disk => plugin_files disk;
     absolute := fun p => "/work/" ++ p;
     spec_from_file_location := fun name origin _ =>
       Some {| spec_name := name; spec_origin := origin;
               spec_has_loader := true |};
     exec_module := fun spec disk path =>
       if exec_raises
       then (inl (Raise ImportError "No module named 'numpy'"), (disk, path))
       else (inr [("__name__", ObjValue (PyStr (spec_name spec)));
                  ("BasePipeline", ObjClass BasePipeline);
                  ("CamPipeline", ObjClass CamPipeline)],
             (disk, path));
     util_load_config := fun path disk =>
       match dict_get path (config_files disk) with
       | Some config => inr config
       | None => inl (Raise FileNotFoundError path)
       end;
     util_save_config := fun path config disk =>
       (inr tt,
        {| plugin_files := plugin_files disk;
           config_files := dict_set path config (config_files disk) |}) |}.

Definition disk (files : list Path) : Disk :=
  {| plugin_files := files;
     config_files := [("pipelines/cam/pipeline.yml", [("fps", PyInt 25)])] |}.

Definition state (files : list Path) : State Disk :=
  {| fs := disk files; sys_path := ["/usr/lib/python3"]; events := [] |}.

Definition wrapper : PipelineWrapper :=
  {| root_dir := "pipelines/cam"; dry_run := false; pipeline_class := None |}.

End Demo.

Module DemoProject.

Import Project.

(** A pipeline wrapper: the operations its plugin offers, and whether
    its [git pull] fails. *)
Record Wrapper : Type := {
  operations : list string;
  pull_fails : bool
}.

Definition has_operation (ops : list string) (name : string) : bool :=
  existsb (String.eqb name) ops.

(** The world is a count of the side effects so far.  A deployment
    wrapper is its root directory; a plugin instance is the list of its
    operations; a dispatched operation returns its data directory. *)
Definition externals
  : Externals nat Wrapper Path (list string) (list (Path * Config)) :=
  {| load_pipeline := fun wrapper w => (inr (operations wrapper), w);
     update := fun wrapper w =>
       if pull_fails wrapper
       then (inl (Raise OtherException "git pull failed"), w)
       else (inr tt, S w);
     get_pipeline_data_dir := fun root pipeline_name =>
       path_join root pipeline_name;
     load_config := fun root _ => inr [("root", PyStr root)];
     hasattr := has_operation;
     call_method := fun _ _ data_dir _ _ w => (inr (PyStr data_dir), S w);
     run_compose := fun _ data_dirs configs _ w =>
       (inr (combine data_dirs configs), S w) |}.

Definition project : ProjectWrapper Wrapper Path :=
  {| pipeline_wrappers :=
       [("camA", {| operations := ["run_process"; "run_compose"];
                    pull_fails := true |});
        ("camB", {| operations := ["run_process"; "run_compose"; "run_import"];
                    pull_fails := false |})];
     deployment_wrappers :=
       [("dep1", "deployments/dep1"); ("dep2", "deployments/dep2")] |}.

Definition start : State nat :=
  {| world := 0; invocations := []; log := [] |}.

End DemoProject.

(* ===================================================================== *)
(** ** Reading a dispatch that may have failed *)
(* ===================================================================== *)

Module Dispatch.

Import Project.

(** A recorded call of a plugin operation that returned. *)
Definition returned (ev : Event) : bool :=
  match ev with
  | EvInvoke _ _ _ _ _ _ (inr _) => true
  | _ => false
  end.

(** A recorded call of a plugin operation that raised [e]. *)
Definition raised (e : exn) (ev : Event) : Prop :=
  exists deployment pipeline command data_dir config kwargs,
    ev = EvInvoke deployment pipeline command data_dir config kwargs (inl e).

Section Calls.
Context {World PW DW Pipeline CR : Type}.
Context (X : Externals World PW DW Pipeline CR).




End Calls.

End Dispatch.

Module DemoFaults.

Import Project.

(** The demonstration project with faults: a wrapper without operations
    fails to load, a pull that fails is an interrupt from the keyboard, and
    the operation raises on [camB]'s data in [dep1]. *)
Definition externals
  : Externals nat DemoProject.Wrapper Path (list string)
      (list (Path * Config)) :=
  {| load_pipeline := fun wrapper w =>
       match DemoProject.operations wrapper with
       | [] => (inl (Raise ImportError
                       "Pipeline class has not been set or could not be found."),
                w)
       | ops => (inr ops, S w)
       end;
     update := fun wrapper w =>
       if DemoProject.pull_fails wrapper
       then (inl (Raise KeyboardInterrupt ""), w)
       else (inr tt, S w);
     get_pipeline_data_dir := fun root pipeline_name =>
       path_join root pipeline_name;
     load_config := fun root _ => inr [("root", PyStr root)];
     hasattr := DemoProject.has_operation;
     call_method := fun _ _ data_dir _ _ w =>
       if String.eqb data_dir "deployments/dep1/camB"
       then (inl (Raise OtherException "disk full"), S w)
       else (inr (PyStr data_dir), S w);
     run_compose := fun _ data_dirs configs _ w =>
       (inr (combine data_dirs configs), S w) |}.

(** [camA] updates, [camB]'s pull is interrupted, [camC] cannot load. *)
Definition project : ProjectWrapper DemoProject.Wrapper Path :=
  {| pipeline_wrappers :=
       [("camA", {| DemoProject.operations := ["run_process"];
                    DemoProject.pull_fails := false |});
        ("camB", {| DemoProject.operations := ["run_process"];
                    DemoProject.pull_fails := true |});
        ("camC", {| DemoProject.operations := [];
                    DemoProject.pull_fails := false |})];
     deployment_wrappers :=
       [("dep1", "deployments/dep1"); ("dep2", "deployments/dep2")] |}.

End DemoFaults.

(* ===================================================================== *)
(** ** [PipelineWrapper.get_instance] (core/wrappers/pipeline.py) *)
(* ===================================================================== *)

Module Instance.

Import Loader.

(** A [logging.FileHandler], known by the file it writes. *)
Definition Handler : Type := Path.

(** A plugin instance and the handlers added to its logger. *)
Record LoggedInstance : Type := {
  instance : PipelineInstance;
  handlers : list Handler
}.

Section WithEnv.
Context {FS : Type} (E : Env FS).

(** [PipelineWrapper.get_instance].  [file_handler] is
    [self._file_handler].  The wrapper is a mutable object and the class
    cache is written before the configuration is read, so the wrapper as the
    call leaves it is given back on every exit, next to the value or the
    exception. *)
Definition get_instance (self : PipelineWrapper)
    (file_handler : option Handler) (st : State FS)
  : (result LoggedInstance * PipelineWrapper) * State FS :=
  match get_pipeline_class E self st with
  | (inl e, st1) => ((inl e, self), st1)
  | (inr (self1, None), st1) =>
      ((inl (Raise ImportError
               "Pipeline class has not been set or could not be found."),
        self1), st1)
  | (inr (self1, Some pipeline_class), st1) =>
      match load_config E self1 st1 with
      | (inl e, st2) => ((inl e, self1), st2)
      | (inr config, st2) =>
          match instantiate pipeline_class (repo_dir self1) config
                  (dry_run self1) st2 with
          | (inl e, st3) => ((inl e, self1), st3)
          | (inr pipeline_instance, st3) =>
              ((inr {| instance := pipeline_instance;
                       handlers := match file_handler with
                                   | Some handler => [handler]
                                   | None => []
                                   end |},
                self1), st3)
          end
      end
  end.

End WithEnv.

(** The outcome of [get_instance] without the logging set-up. *)
Definition plain (r : result LoggedInstance) : result PipelineInstance :=
  match r with
  | inl e => inl e
  | inr logged => inr (instance logged)
  end.

End Instance.

Module DemoLoader.

Import Loader.

(** An interpreter whose plugin module defines helpers but no pipeline
    class, on the disk of [Demo]. *)
Definition env_without_class : Env Demo.Disk :=
  {| glob_pipeline_py := fun _ disk => Demo.plugin_files disk;
     absolute := fun p => "/work/" ++ p;
     spec_from_file_location := fun name origin _ =>
       Some {| spec_name := name; spec_origin := origin;
               spec_has_loader := true |};
     exec_module := fun spec disk path =>
       (inr [("__name__", ObjValue (PyStr (spec_name spec)));
             ("BasePipeline", ObjClass BasePipeline);
             ("VERSION", ObjValue (PyInt 3))],
        (disk, path));
     util_load_config := util_load_config (Demo.env false);
     util_save_config := util_save_config (Demo.env false) |}.

(** An interpreter that cannot build a module spec for the file. *)
Definition env_without_spec : Env Demo.Disk :=
  {| glob_pipeline_py := fun _ disk => Demo.plugin_files disk;
     absolute := fun p => "/work/" ++ p;
     spec_from_file_location := fun _ _ _ => None;
     exec_module := exec_module (Demo.env false);
     util_load_config := util_load_config (Demo.env false);
     util_save_config := util_save_config (Demo.env false) |}.


End DemoLoader.

(* ===================================================================== *)
(** ** [PipelineWrapper.install] (core/wrappers/pipeline.py) *)
(* ===================================================================== *)

From Stdlib Require DecimalString.

(** Log records of the methods that also log at debug level. *)
Module Logging.

Inductive log_level : Type :=
| DEBUG
| Level (l : level).

Record Entry : Type := { entry_level : log_level; entry_msg : string }.

End Logging.

Module Install.

Import Loader.
Import Logging.

(** What [install] can raise: [PipelineWrapper.InstallError], with its
    message and the exception it was raised [from], or an exception of
    another class that passes through. *)
#[warnings="-register-all"]
Inductive failure : Type :=
| Builtin (e : exn)
| InstallError (msg : string) (cause : option failure).

(** [str(e)] *)
Definition failure_str (f : failure) : string :=
  match f with
  | Builtin e => exn_msg e
  | InstallError msg _ => msg
  end.

(** [isinstance(e, Exception)] *)
Definition failure_is_Exception (f : failure) : bool :=
  match f with
  | Builtin e => is_Exception e
  | InstallError _ _ => true
  end.

(** A [bytes] object: a string of 8-bit characters. *)
Definition bytes : Type := string.

(** The process environment of [install]: [is_file] is [Path.is_file],
    [which] is [shutil.which], [communicate] runs a command to its end
    ([subprocess.Popen] and [process.communicate()]), giving the bytes of
    the standard output, the bytes of the standard error and the return
    code, or raising when the process cannot be started or is interrupted,
    and [decode] is [bytes.decode("utf-8")], which raises
    [UnicodeDecodeError], a [ValueError], on bytes that are not UTF-8. *)
Record Env (FS : Type) : Type := {
  is_file : Path -> FS -> bool;
  absolute : Path -> Path;
  which : string -> FS -> option Path;
  communicate :
    list string -> FS -> result (bytes * bytes * Z) * FS;
  decode : bytes -> result string
}.
Arguments is_file {FS}.
Arguments absolute {FS}.
Arguments which {FS}.
Arguments communicate {FS}.
Arguments decode {FS}.

(** [commands] records every command that was run. *)
Record State (FS : Type) : Type := {
  fs : FS;
  log : list Entry;
  commands : list (list string)
}.
Arguments fs {FS}.
Arguments log {FS}.
Arguments commands {FS}.
Arguments Build_State {FS}.

(** [self.requirements_path] *)
Definition requirements_path (self : PipelineWrapper) : Path :=
  path_join (repo_dir self) "requirements.txt".

(** [f"{process.returncode}"] *)
Definition str_of_int (z : Z) : string :=
  DecimalString.NilEmpty.string_of_int (Z.to_int z).

Section WithEnv.
Context {FS : Type} (E : Env FS).

Definition logged (lv : log_level) (msg : string) (st : State FS) : State FS :=
  Build_State (fs st) (log st ++ [{| entry_level := lv; entry_msg := msg |}])%list
    (commands st).

(** [if data: log(data.decode("utf-8"))] *)
Definition log_decoded (lv : log_level) (data : bytes) (st : State FS)
  : result unit * State FS :=
  if String.eqb data EmptyString then (inr tt, st)
  else
    match decode E data with
    | inl e => (inl e, st)
    | inr text => (inr tt, logged lv text st)
    end.

(** The bytes of a stream do not stop [install]: there are none, or they
    decode. *)
Definition loggable (data : bytes) : bool :=
  if String.eqb data EmptyString then true
  else match decode E data with inl _ => false | inr _ => true end.

(** The body of the [try] statement. *)
Definition install_attempt (self : PipelineWrapper) (st : State FS)
  : (failure + unit) * State FS :=
  let requirements_path := absolute E (requirements_path self) in
  if negb (is_file E requirements_path (fs st)) then
    (inl (InstallError ("Requirements file not found: " ++ requirements_path)
            None), st)
  else
    match which E "pip" (fs st) with
    | None => (inl (InstallError "pip executable not found in PATH" None), st)
    | Some pip_path =>
        let command :=
          [pip_path; "install"; "--no-input"; "-r"; requirements_path] in
        let st1 :=
          Build_State (fs st) (log st) (commands st ++ [command])%list in
        match communicate E command (fs st1) with
        | (inl e, fs') =>
            (inl (Builtin e), Build_State fs' (log st1) (commands st1))
        | (inr (output, error, returncode), fs') =>
            let st2 := Build_State fs' (log st1) (commands st1) in
            match log_decoded DEBUG output st2 with
            | (inl e, st3) => (inl (Builtin e), st3)
            | (inr _, st3) =>
                match log_decoded (Level WARNING) error st3 with
                | (inl e, st4) => (inl (Builtin e), st4)
                | (inr _, st4) =>
                    if negb (Z.eqb returncode 0) then
                      (inl (InstallError
                              ("pip install had a non-zero return code: "
                               ++ str_of_int returncode) None), st4)
                    else
                      (inr tt,
                       logged (Level INFO)
                         "Pipeline dependencies installed successfully." st4)
                end
            end
        end
    end.

(** [PipelineWrapper.install] *)
Definition install (self : PipelineWrapper) (st : State FS)
  : (failure + unit) * State FS :=
  if is_file E (requirements_path self) (fs st) then
    let st1 :=
      logged (Level INFO)
        ("Installing pipeline dependencies from " ++ requirements_path self
         ++ "...") st in
    match install_attempt self st1 with
    | (inr tt, st2) => (inr tt, st2)
    | (inl e, st2) =>
        if failure_is_Exception e then
          (inl (InstallError "" (Some e)),
           logged (Level ERROR)
             ("Error installing pipeline dependencies: " ++ failure_str e) st2)
        else (inl e, st2)
    end
  else
    (inl (InstallError
            ("Requirements file does not exist: " ++ requirements_path self)
            None),
     logged (Level ERROR)
       ("Requirements file does not exist: " ++ requirements_path self) st).

(** The command [install] runs for a wrapper when [pip] is at [pip_path]. *)
Definition pip_command (self : PipelineWrapper) (pip_path : Path)
  : list string :=
  [pip_path; "install"; "--no-input"; "-r";
   absolute E (requirements_path self)].

End WithEnv.

End Install.

Module DemoInstall.

Import Install.

(** The byte [0xff], which no UTF-8 text holds. *)
Definition byte_ff : ascii := ascii_of_nat 255.

(** A disk is the list of its files; [pip] is installed; a requirements
    file that mentions [nosuchpkg] makes pip fail with code 1, and one that
    mentions [latin1pkg] makes pip print a byte that is not UTF-8; bytes
    decode to themselves unless they hold the byte [0xff]. *)
Definition env : Env (list Path) :=
  {| is_file := fun p files => existsb (String.eqb p) files;
     absolute := fun p => p;
     which := fun name _ => Some ("/usr/bin/" ++ name);
     communicate := fun command files =>
       if existsb (String.eqb "nosuchpkg") files
       then (inr ("", "ERROR: No matching distribution found", 1%Z), files)
       else if existsb (String.eqb "latin1pkg") files
       then (inr (String byte_ff "Successfully installed", "", 0%Z), files)
       else (inr ("Successfully installed", "", 0%Z), files);
     decode := fun data =>
       if existsb (Ascii.eqb byte_ff) (list_ascii_of_string data)
       then inl (Raise ValueError
                   "'utf-8' codec can't decode byte 0xff: invalid start byte")
       else inr data |}.

Definition state (files : list Path) : State (list Path) :=
  {| fs := files; log := []; commands := [] |}.

End DemoInstall.

(* ===================================================================== *)
(** ** The registries of [ProjectWrapper] (wrappers/project.py):
       [_load_pipeline], [_load_deployments], [create_deployment] *)
(* ===================================================================== *)

Module Registry.

Import Logging.

Definition Config : Type := dict pyval.

(** What the modelled methods raise: [ProjectWrapper.CreateDeploymentError],
    or whatever a collaborator raised. *)
Inductive failure : Type :=
| Builtin (e : exn)
| CreateDeploymentError (msg : string).

(** The disk and the wrapper classes, as far as the registries need them.
    [iterdir] gives the names of the entries of a directory;
    [pipeline_wrapper] and [deployment_wrapper] are the constructors
    [PipelineWrapper(dir)] and [DeploymentWrapper(dir)], which validate the
    directory and attach a log file; [deployment_create] is
    [DeploymentWrapper.create(dir, config)]. *)
Record Env (FS PW DW : Type) : Type := {
  path_exists : Path -> FS -> bool;
  is_dir : Path -> FS -> bool;
  iterdir : Path -> FS -> list string;
  mkdir : Path -> FS -> result unit * FS;
  pipeline_wrapper : Path -> FS -> result PW * FS;
  deployment_wrapper : Path -> FS -> result DW * FS;
  deployment_create : Path -> Config -> FS -> result DW * FS;
  get_pipeline_data_dir : DW -> string -> Path
}.
Arguments path_exists {FS PW DW}.
Arguments is_dir {FS PW DW}.
Arguments iterdir {FS PW DW}.
Arguments mkdir {FS PW DW}.
Arguments pipeline_wrapper {FS PW DW}.
Arguments deployment_wrapper {FS PW DW}.
Arguments deployment_create {FS PW DW}.
Arguments get_pipeline_data_dir {FS PW DW}.

(** The disk, the two registries of the project object, the paths [mkdir]
    has been called on so far, and the log. *)
Record State (FS PW DW : Type) : Type := {
  fs : FS;
  pipelines : dict PW;
  deployments : dict DW;
  made : list Path;
  log : list Entry
}.
Arguments fs {FS PW DW}.
Arguments pipelines {FS PW DW}.
Arguments deployments {FS PW DW}.
Arguments made {FS PW DW}.
Arguments log {FS PW DW}.
Arguments Build_State {FS PW DW}.

(** [self._pipeline_dir] and [self._deployments_dir] *)
Definition pipeline_dir (root_dir : Path) : Path :=
  path_join root_dir "pipelines".

Definition deployments_dir (root_dir : Path) : Path :=
  path_join root_dir "deployments".

Section WithEnv.
Context {FS PW DW : Type} (E : Env FS PW DW).

Local Abbreviation St := (State FS PW DW).

(** The loop of [_load_pipeline] over the entries of the pipelines
    directory; [filter] is lazy, so each entry is tested when the loop
    reaches it.  The key [pipeline_dir.name] is the entry's name. *)
Fixpoint load_pipeline_loop (dir : Path) (names : list string) (st : St)
  : (failure + unit) * St :=
  match names with
  | [] => (inr tt, st)
  | name :: rest =>
      let pipeline_dir := path_join dir name in
      if is_dir E pipeline_dir (fs st) then
        match pipeline_wrapper E pipeline_dir (fs st) with
        | (inl e, fs') =>
            (inl (Builtin e),
             Build_State fs' (pipelines st) (deployments st) (made st) (log st))
        | (inr wrapper, fs') =>
            load_pipeline_loop dir rest
              (Build_State fs' (dict_set name wrapper (pipelines st))
                 (deployments st) (made st) (log st))
        end
      else load_pipeline_loop dir rest st
  end.

(** [ProjectWrapper._load_pipeline] *)
Definition _load_pipeline (root_dir : Path) (st : St) : (failure + unit) * St :=
  let names := iterdir E (pipeline_dir root_dir) (fs st) in
  load_pipeline_loop (pipeline_dir root_dir) names
    (Build_State (fs st) [] (deployments st) (made st) (log st)).

Fixpoint load_deployments_loop (dir : Path) (names : list string) (st : St)
  : (failure + unit) * St :=
  match names with
  | [] => (inr tt, st)
  | name :: rest =>
      let deployment_dir := path_join dir name in
      if is_dir E deployment_dir (fs st) then
        match deployment_wrapper E deployment_dir (fs st) with
        | (inl e, fs') =>
            (inl (Builtin e),
             Build_State fs' (pipelines st) (deployments st) (made st) (log st))
        | (inr wrapper, fs') =>
            load_deployments_loop dir rest
              (Build_State fs' (pipelines st)
                 (dict_set name wrapper (deployments st)) (made st) (log st))
        end
      else load_deployments_loop dir rest st
  end.

(** [ProjectWrapper._load_deployments] *)
Definition _load_deployments (root_dir : Path) (st : St)
  : (failure + unit) * St :=
  let names := iterdir E (deployments_dir root_dir) (fs st) in
  load_deployments_loop (deployments_dir root_dir) names
    (Build_State (fs st) (pipelines st) [] (made st) (log st)).

(** The loop of [create_deployment] over the registered pipelines:
    [deployment_wrapper.get_pipeline_data_dir(pipeline_name).mkdir()] *)
Fixpoint make_data_dirs (wrapper : DW) (pipeline_names : list string) (st : St)
  : (failure + unit) * St :=
  match pipeline_names with
  | [] => (inr tt, st)
  | pipeline_name :: rest =>
      let data_dir := get_pipeline_data_dir E wrapper pipeline_name in
      match mkdir E data_dir (fs st) with
      | (inl e, fs') =>
          (inl (Builtin e),
           Build_State fs' (pipelines st) (deployments st)
             (made st ++ [data_dir])%list (log st))
      | (inr _, fs') =>
          make_data_dirs wrapper rest
            (Build_State fs' (pipelines st) (deployments st)
               (made st ++ [data_dir])%list (log st))
      end
  end.

Definition deployment_exists_msg (name : string) : string :=
  "A deployment with the name " ++ quoted name ++ " already exists.".

Definition no_parent_msg (parent : string) : string :=
  "The parent deployment " ++ quoted parent ++ " does not exist.".

(** [parent is not None and parent not in self._deployment_wrappers] *)
Definition parent_unknown (parent : option string) (st : St) : bool :=
  match parent with
  | Some p => match dict_get p (deployments st) with
              | Some _ => false
              | None => true
              end
  | None => false
  end.

(** [ProjectWrapper.create_deployment] *)
Definition create_deployment (root_dir : Path) (name : string)
    (parent : option string) (st : St) : (failure + DW) * St :=
  let st0 :=
    Build_State (fs st) (pipelines st) (deployments st) (made st)
      (log st ++ [{| entry_level := DEBUG;
                     entry_msg := "Creating deployment " ++ quoted name |}])%list
  in
  let deployment_dir := path_join (deployments_dir root_dir) name in
  if path_exists E deployment_dir (fs st0) then
    (inl (CreateDeploymentError (deployment_exists_msg name)), st0)
  else if parent_unknown parent st0 then
    (inl (CreateDeploymentError
            (no_parent_msg (match parent with Some p => p | None => "" end))),
     st0)
  else
    match deployment_create E deployment_dir [] (fs st0) with
    | (inl e, fs') =>
        (inl (Builtin e),
         Build_State fs' (pipelines st0) (deployments st0) (made st0) (log st0))
    | (inr wrapper, fs') =>
        match make_data_dirs wrapper (dict_keys (pipelines st0))
                (Build_State fs' (pipelines st0) (deployments st0) (made st0)
                   (log st0)) with
        | (inl e, st1) => (inl e, st1)
        | (inr _, st1) =>
            match _load_deployments root_dir st1 with
            | (inl e, st2) => (inl e, st2)
            | (inr _, st2) => (inr wrapper, st2)
            end
        end
    end.

End WithEnv.

End Registry.

Module DemoRegistry.

Import Registry.

(** A disk is the list of its directories.  A directory whose name ends in
    [broken] cannot be wrapped; wrappers are the directories themselves. *)
Definition is_broken (p : Path) : bool :=
  String.eqb (path_name p) "broken".

Definition wrap (p : Path) (dirs : list Path) : result Path * list Path :=
  if is_broken p
  then (inl (Raise OtherException (quoted (p ++ "/repo")
                                   ++ " does not exist or is not a directory.")),
        dirs)
  else (inr p, dirs).

Definition env : Env (list Path) Path Path :=
  {| path_exists := fun p dirs => existsb (String.eqb p) dirs;
     is_dir := fun p dirs => existsb (String.eqb p) dirs;
     iterdir := fun p dirs =>
       if String.eqb p "proj/pipelines" then ["camA"; "notes.txt"; "camB"]
       else if String.eqb p "proj/deployments" then ["dep1"; "broken"; "dep2"]
       else if String.eqb p "site/deployments" then ["dep1"; "dep3"]
       else if String.eqb p "lab/pipelines" then ["camA"; "broken"; "camB"]
       else [];
     mkdir := fun p dirs => (inr tt, dirs ++ [p])%list;
     pipeline_wrapper := wrap;
     deployment_wrapper := wrap;
     deployment_create := fun p _ dirs => (inr p, dirs ++ [p])%list;
     get_pipeline_data_dir := fun root name => path_join root name |}.

Definition state : State (list Path) Path Path :=
  {| fs := ["proj"; "proj/pipelines"; "proj/deployments";
            "proj/pipelines/camA"; "proj/pipelines/camB";
            "proj/deployments/dep1"; "proj/deployments/broken";
            "proj/deployments/dep2"];
     pipelines := [("old", "proj/pipelines/old"); ("camA", "proj/pipelines/camA")];
     deployments := [("dep1", "proj/deployments/dep1");
                     ("dep2", "proj/deployments/dep2")];
     made := [];
     log := [] |}.

(** A project at [site] with two pipelines and one deployment. *)
Definition site : State (list Path) Path Path :=
  {| fs := ["site"; "site/pipelines"; "site/deployments";
            "site/pipelines/camA"; "site/pipelines/camB";
            "site/deployments/dep1"];
     pipelines := [("camA", "site/pipelines/camA");
                   ("camB", "site/pipelines/camB")];
     deployments := [("dep1", "site/deployments/dep1")];
     made := [];
     log := [] |}.

(** A project at [lab] one of whose pipeline directories cannot be
    wrapped. *)
Definition lab : State (list Path) Path Path :=
  {| fs := ["lab"; "lab/pipelines"; "lab/deployments";
            "lab/pipelines/camA"; "lab/pipelines/broken";
            "lab/pipelines/camB"];
     pipelines := [("camA", "lab/pipelines/camA");
                   ("camB", "lab/pipelines/camB")];
     deployments := [];
     made := [];
     log := [] |}.

End DemoRegistry.

Local Open Scope list_scope.

(* ===================================================================== *)
(** ** Facts about the Python data *)
(* ===================================================================== *)

Section DictFacts.
Context {V : Type}.

Lemma dict_get_set_same (k : string) (v : V) (d : dict V) :
  dict_get k (dict_set k v d) = Some v.
Proof.
  induction d as [|[k' v'] d IH]; simpl.
  - now rewrite String.eqb_refl.
  - destruct (String.eqb k k') eqn:E; simpl; rewrite E; auto.
Qed.

Lemma dict_get_set_other (k k0 : string) (v : V) (d : dict V) :
  k0 <> k -> dict_get k0 (dict_set k v d) = dict_get k0 d.
Proof.
  intros Hne. induction d as [|[k' v'] d IH]; simpl.
  - destruct (String.eqb_spec k0 k); congruence.
  - destruct (String.eqb_spec k k'); simpl.
    + subst k'. destruct (String.eqb_spec k0 k); congruence.
    + now rewrite IH.
Qed.

Lemma dict_merge_app (d d1 d2 : dict V) :
  dict_merge d (d1 ++ d2) = dict_merge (dict_merge d d1) d2.
Proof. unfold dict_merge. now rewrite fold_left_app. Qed.

Lemma dict_merge_cons (d : dict V) (k : string) (v : V) (d2 : dict V) :
  dict_merge d ((k, v) :: d2) = dict_merge (dict_set k v d) d2.
Proof. reflexivity. Qed.

(** A key that the right operand does not carry keeps its binding. *)
Lemma dict_get_merge_absent (k : string) (d d2 : dict V) :
  ~ In k (dict_keys d2) -> dict_get k (dict_merge d d2) = dict_get k d.
Proof.
  revert d. induction d2 as [|[k' v'] d2 IH]; intros d Hout.
  - reflexivity.
  - rewrite dict_merge_cons, IH by (intros H; apply Hout; now right).
    apply dict_get_set_other. intros ->. apply Hout. now left.
Qed.

(** The last binding of a key in the right operand wins. *)
Lemma dict_get_merge_last (k : string) (v : V) (d pre post : dict V) :
  ~ In k (dict_keys post) ->
  dict_get k (dict_merge d (pre ++ (k, v) :: post)) = Some v.
Proof.
  intros Hout.
  rewrite dict_merge_app, dict_merge_cons, dict_get_merge_absent by exact Hout.
  apply dict_get_set_same.
Qed.

Lemma dict_keys_set (k : string) (v : V) (d : dict V) :
  dict_keys (dict_set k v d) =
  if in_dec string_dec k (dict_keys d) then dict_keys d
  else dict_keys d ++ [k].
Proof.
  induction d as [|[k' v'] d IH]; simpl.
  - reflexivity.
  - destruct (String.eqb_spec k k') as [->|Hne]; simpl.
    + destruct (string_dec k' k'); [reflexivity | congruence].
    + destruct (string_dec k' k); [congruence|].
      rewrite IH. unfold dict_keys.
      destruct (in_dec string_dec k (map fst d)); reflexivity.
Qed.

Lemma dict_set_NoDup (k : string) (v : V) (d : dict V) :
  NoDup (dict_keys d) -> NoDup (dict_keys (dict_set k v d)).
Proof.
  intros Hnd. rewrite dict_keys_set.
  destruct (in_dec string_dec k (dict_keys d)) as [|Hout]; [exact Hnd|].
  apply NoDup_app; repeat split; auto.
  - constructor; [intros [] | constructor].
  - intros x Hx [<-|[]]. contradiction.
Qed.

Lemma dict_merge_NoDup (d d2 : dict V) :
  NoDup (dict_keys d) -> NoDup (dict_keys (dict_merge d d2)).
Proof.
  revert d. induction d2 as [|[k v] d2 IH]; intros d Hnd.
  - exact Hnd.
  - rewrite dict_merge_cons. apply IH. now apply dict_set_NoDup.
Qed.

(** Looking a key up finds its first binding, which is the only one when
    keys are not repeated. *)
Lemma dict_get_In (k : string) (v : V) (d : dict V) :
  dict_get k d = Some v -> In (k, v) d.
Proof.
  induction d as [|[k' v'] d IH]; simpl; [discriminate|].
  destruct (String.eqb_spec k k') as [->|Hne].
  - intros [= ->]. now left.
  - intros H. right. auto.
Qed.



(** The right operand of a merge wins on every key it binds. *)
Lemma dict_get_merge_right (k : string) (v : V) (d d2 : dict V) :
  NoDup (dict_keys d2) -> dict_get k d2 = Some v ->
  dict_get k (dict_merge d d2) = Some v.
Proof.
  intros Hnd Hget. apply dict_get_In in Hget.
  destruct (in_split _ _ Hget) as (pre & post & ->).
  apply dict_get_merge_last.
  unfold dict_keys in Hnd. rewrite map_app in Hnd. simpl in Hnd.
  apply NoDup_remove_2 in Hnd. intros H. apply Hnd, in_or_app. now right.
Qed.




End DictFacts.

Section ListFacts.
Context {A B : Type}.



End ListFacts.

Section StringFacts.
Variable sep : ascii.

Lemma str_split_length (s : string) :
  length (str_split sep s) = S (str_count sep s).
Proof.
  induction s as [|c s IH]; simpl; [reflexivity|].
  destruct (Ascii.eqb c sep); simpl; [now rewrite IH|].
  destruct (str_split sep s); simpl in *; [discriminate | exact IH].
Qed.

Lemma str_split_no_sep (s : string) :
  str_count sep s = 0 -> str_split sep s = [s].
Proof.
  induction s as [|c s IH]; simpl; [reflexivity|].
  destruct (Ascii.eqb c sep); simpl; [discriminate|].
  intros H. now rewrite IH.
Qed.

(** With exactly one separator, cutting at every separator and cutting at
    the first one give the same two pieces. *)
Lemma str_split_one_sep (s : string) :
  str_count sep s = 1 ->
  str_split sep s = [fst (str_partition sep s); snd (str_partition sep s)].
Proof.
  induction s as [|c s IH]; simpl; [discriminate|].
  destruct (Ascii.eqb c sep); simpl.
  - intros [= H]. now rewrite str_split_no_sep.
  - intros H. rewrite (IH H).
    now destruct (str_partition sep s).
Qed.

Lemma str_split_two_pieces (s key value : string) :
  str_split sep s = [key; value] ->
  str_count sep s = 1 /\ str_partition sep s = (key, value).
Proof.
  intros H.
  assert (Hc : str_count sep s = 1).
  { pose proof (str_split_length s) as HL. rewrite H in HL. simpl in HL. lia. }
  split; [exact Hc|].
  rewrite (str_split_one_sep s Hc) in H. injection H as <- <-.
  now destruct (str_partition sep s).
Qed.

End StringFacts.

Example str_split_examples :
  str_split "=" "key=value" = ["key"; "value"]
  /\ str_split "=" "a=b=c" = ["a"; "b"; "c"]
  /\ str_split "=" "flag" = ["flag"]
  /\ str_split "=" "=" = [""; ""]
  /\ str_split "=" "" = [""].
Proof. repeat split. Qed.

Example path_stem_examples :
  path_stem "pipelines/cam/repo/cam.pipeline.py" = "cam.pipeline"
  /\ path_stem "repo/.hidden" = ".hidden"
  /\ path_stem "repo/archive." = "archive."
  /\ path_stem "repo/plain" = "plain".
Proof. repeat split. Qed.

Example get_merged_keyword_args_example :
  MergedArgs.get_merged_keyword_args
    [("dry_run", PyBool true); ("overwrite", PyBool false)]
    (Some ["overwrite=yes"; "a=b=c"; "days=3"; "novalue"; "empty="])
  = (inr [("dry_run", PyBool true); ("overwrite", PyStr "yes");
          ("days", PyStr "3"); ("empty", PyStr "")],
     [MergedArgs.invalid_extra_warning "a=b=c";
      MergedArgs.invalid_extra_warning "novalue"]).
Proof. reflexivity. Qed.

Section MergedArgsFacts.
Import MergedArgs.

Lemma exactly_one_eq_split (arg : string) :
  exactly_one_eq arg = true ->
  str_split "=" arg =
    [fst (str_partition "=" arg); snd (str_partition "=" arg)].
Proof.
  unfold exactly_one_eq. intros H. apply Nat.eqb_eq in H.
  now apply str_split_one_sep.
Qed.

Lemma split_exactly_one_eq (arg key value : string) :
  str_split "=" arg = [key; value] ->
  exactly_one_eq arg = true /\ str_partition "=" arg = (key, value).
Proof.
  intros H. destruct (str_split_two_pieces _ _ _ _ H) as [Hc Hp].
  split; [|exact Hp]. unfold exactly_one_eq. now rewrite Hc.
Qed.

Lemma length_split_exactly_one_eq (arg : string) :
  Nat.eqb (length (str_split "=" arg)) 2 = exactly_one_eq arg.
Proof. unfold exactly_one_eq. now rewrite str_split_length. Qed.

(** The loop of the source adds to [extra_dict] the pairs the
    specification describes, in order, and warns about the other
    entries, in order. *)
Lemma extra_loop_spec (extra_args : list string) :
  forall extra_dict warnings,
    extra_loop extra_args extra_dict warnings =
    (inr (dict_merge extra_dict (spec_extra_pairs extra_args)),
     warnings ++ spec_warnings extra_args).
Proof.
  induction extra_args as [|arg rest IH]; intros extra_dict warnings.
  - simpl. now rewrite app_nil_r.
  - cbn [extra_loop]. rewrite length_split_exactly_one_eq.
    unfold spec_extra_pairs, spec_warnings. cbn [filter].
    destruct (exactly_one_eq arg) eqn:Hone; cbn [negb map].
    + rewrite (exactly_one_eq_split arg Hone). cbn [unpack2].
      rewrite IH. destruct (str_partition "=" arg) as [k v].
      reflexivity.
    + rewrite IH. now rewrite <- app_assoc.
Qed.

Lemma get_merged_keyword_args_eq (kwargs : dict pyval)
    (extra_args : option (list string)) :
  get_merged_keyword_args kwargs extra_args =
  spec_merged_keyword_args kwargs extra_args.
Proof.
  unfold get_merged_keyword_args, spec_merged_keyword_args.
  destruct extra_args as [[|arg rest]|]; cbn [truthy_list]; try reflexivity.
  now rewrite extra_loop_spec.
Qed.

Lemma spec_extra_pairs_app (l1 l2 : list string) :
  spec_extra_pairs (l1 ++ l2) = spec_extra_pairs l1 ++ spec_extra_pairs l2.
Proof. unfold spec_extra_pairs. now rewrite filter_app, map_app. Qed.

Lemma spec_extra_pairs_key (l : list string) (key : string) :
  In key (dict_keys (spec_extra_pairs l)) ->
  exists arg value, In arg l /\ str_split "=" arg = [key; value].
Proof.
  unfold dict_keys, spec_extra_pairs. rewrite map_map, in_map_iff.
  intros (arg & Hk & Hin). apply filter_In in Hin as [Hin Hone].
  exists arg, (snd (str_partition "=" arg)). split; [exact Hin|].
  rewrite (exactly_one_eq_split arg Hone).
  destruct (str_partition "=" arg); simpl in *. now subst.
Qed.

(** C9.  The merge of the source is the merge of the specification: an
    extra argument with exactly one ['='] is cut at that (first) ['=']
    into key and value and bound; every other entry is left out of the
    merged keyword arguments and a warning is logged for it; and the
    merge always returns, whatever the entries are. *)
Theorem get_merged_keyword_args_drops_malformed
    (kwargs : dict pyval) (extra_args : option (list string)) :
  get_merged_keyword_args kwargs extra_args =
    spec_merged_keyword_args kwargs extra_args
  /\ (exists merged,
        fst (get_merged_keyword_args kwargs extra_args) = inr merged)
  /\ (forall arg,
        exactly_one_eq arg = true ->
        str_split "=" arg =
          [fst (str_partition "=" arg); snd (str_partition "=" arg)])
  /\ (forall arg,
        exactly_one_eq arg = false -> length (str_split "=" arg) <> 2)
  /\ (forall l arg,
        extra_args = Some l -> In arg l -> exactly_one_eq arg = false ->
        In (invalid_extra_warning arg)
           (snd (get_merged_keyword_args kwargs extra_args))).
Proof.
  rewrite get_merged_keyword_args_eq. repeat split.
  - eexists. reflexivity.
  - intros arg. apply exactly_one_eq_split.
  - intros arg Hone Hlen. rewrite <- length_split_exactly_one_eq in Hone.
    rewrite Hlen in Hone. discriminate.
  - intros l arg -> Hin Hone. cbn [spec_merged_keyword_args snd].
    unfold spec_warnings. apply in_map, filter_In.
    split; [exact Hin | now rewrite Hone].
Qed.

(** C10, as amended.  When several well formed extra arguments carry the
    same key the last one is the one that counts: the merged keyword
    arguments bind a key to the string value of the last well formed extra
    argument with that key, whether or not [kwargs] binds the key too. *)
Theorem extra_args_take_precedence
    (kwargs : dict pyval) (before after : list string)
    (arg key value : string) :
  str_split "=" arg = [key; value] ->
  (forall arg' value', In arg' after -> str_split "=" arg' <> [key; value']) ->
  exists merged,
    fst (get_merged_keyword_args kwargs (Some (before ++ arg :: after)))
      = inr merged
    /\ dict_get key merged = Some (PyStr value).
Proof.
  intros Hsplit Hlast.
  rewrite get_merged_keyword_args_eq. cbn [spec_merged_keyword_args fst].
  eexists. split; [reflexivity|].
  apply dict_get_merge_right.
  - apply dict_merge_NoDup. constructor.
  - destruct (split_exactly_one_eq _ _ _ Hsplit) as [Hone Hpart].
    rewrite spec_extra_pairs_app.
    replace (spec_extra_pairs (arg :: after))
      with ((key, PyStr value) :: spec_extra_pairs after).
    + apply dict_get_merge_last. intros Hin.
      apply spec_extra_pairs_key in Hin as (arg' & value' & Hin & Hs).
      exact (Hlast arg' value' Hin Hs).
    + unfold spec_extra_pairs. cbn [filter]. rewrite Hone. cbn [map].
      now rewrite Hpart.
Qed.

Lemma extra_args_take_precedence_witness :
  exists merged,
    fst (get_merged_keyword_args [("a", PyInt 0)]
           (Some (["a=1"] ++ "a=2" :: ["b=3"; "junk"]))) = inr merged
    /\ dict_get "a" merged = Some (PyStr "2").
Proof.
  apply (extra_args_take_precedence [("a", PyInt 0)] ["a=1"]
           ["b=3"; "junk"] "a=2" "a" "2").
  - reflexivity.
  - intros arg' value' [<-|[<-|[]]]; vm_compute; discriminate.
Defined.

(** C10 as first stated fails when a key is repeated among the extra
    arguments: ["a=1"] is well formed and its key is bound in [kwargs],
    yet the merged arguments bind ["a"] to ["2"]. *)
Lemma extra_args_first_duplicate_loses :
  ~ (forall (kwargs : dict pyval) (extra_args : list string)
            (arg key value : string) (old : pyval),
       In arg extra_args ->
       str_split "=" arg = [key; value] ->
       dict_get key kwargs = Some old ->
       exists merged,
         fst (get_merged_keyword_args kwargs (Some extra_args)) = inr merged
         /\ dict_get key merged = Some (PyStr value)).
Proof.
  intros H.
  destruct (H [("a", PyInt 0)] ["a=1"; "a=2"] "a=1" "a" "1" (PyInt 0))
    as (merged & Hm & Hget).
  - now left.
  - reflexivity.
  - reflexivity.
  - vm_compute in Hm. injection Hm as <-. vm_compute in Hget. discriminate.
Qed.

End MergedArgsFacts.

(* ===================================================================== *)
(** ** Facts about computations *)
(* ===================================================================== *)

Section MonadFacts.
Context {S A B : Type}.

Lemma bind_inr (c : M S A) (k : A -> M S B) (s s' : S) (b : B) :
  bind c k s = (inr b, s') ->
  exists a s1, c s = (inr a, s1) /\ k a s1 = (inr b, s').
Proof.
  unfold bind. destruct (c s) as [[e|a] s1]; [discriminate|].
  intros H. now exists a, s1.
Qed.

Lemma bind_step (c : M S A) (k : A -> M S B) (s s1 : S) (a : A) :
  c s = (inr a, s1) -> bind c k s = k a s1.
Proof. unfold bind. now intros ->. Qed.

Lemma bind_raise (c : M S A) (k : A -> M S B) (s s1 : S) (e : exn) :
  c s = (inl e, s1) -> bind c k s = (inl e, s1).
Proof. unfold bind. now intros ->. Qed.

End MonadFacts.

(* ===================================================================== *)
(** ** Plugin discovery and loading *)
(* ===================================================================== *)

Section LoaderFacts.
Import Loader.
Context {FS : Type}.

Lemma scan_run (E : Env FS) (dir : Path) (st : State FS) :
  scan E dir st =
  (inr (glob_pipeline_py E dir (fs st)),
   Build_State (fs st) (sys_path st) (events st ++ [EvScan dir])).
Proof. reflexivity. Qed.

(** Zero matches: [FileNotFoundError], nothing but the scan happened. *)
Lemma import_pipeline_module_none (E : Env FS) (dir : Path) (st : State FS) :
  glob_pipeline_py E dir (fs st) = [] ->
  import_pipeline_module E dir st =
  (inl (Raise FileNotFoundError (no_implementation_msg dir)),
   Build_State (fs st) (sys_path st) (events st ++ [EvScan dir])).
Proof.
  intros H. unfold import_pipeline_module.
  rewrite (bind_step _ _ _ _ _ (scan_run E dir st)). cbn [fs].
  now rewrite H.
Qed.

(** Two or more matches: [FileNotFoundError] again. *)
Lemma import_pipeline_module_many (E : Env FS) (dir : Path) (st : State FS) :
  2 <= length (glob_pipeline_py E dir (fs st)) ->
  import_pipeline_module E dir st =
  (inl (Raise FileNotFoundError
          (multiple_implementations_msg dir (glob_pipeline_py E dir (fs st)))),
   Build_State (fs st) (sys_path st) (events st ++ [EvScan dir])).
Proof.
  intros H. unfold import_pipeline_module.
  rewrite (bind_step _ _ _ _ _ (scan_run E dir st)). cbn [fs].
  destruct (glob_pipeline_py E dir (fs st)) as [|p1 [|p2 rest]];
    simpl in H; try lia.
  reflexivity.
Qed.

Lemma discovery_messages_differ (dir : Path) (paths : list Path) :
  no_implementation_msg dir <> multiple_implementations_msg dir paths.
Proof. unfold no_implementation_msg, multiple_implementations_msg. simpl. discriminate. Qed.

(** C2, as amended.  Zero matching files and two or more matching files
    both make the load fail with the same kind of error,
    [FileNotFoundError], in [load_pipeline_instance] and in
    [get_pipeline_class] alike; what tells the two conditions apart is the
    message. *)
Theorem discovery_errors_same_kind_distinct_messages
    (E : Env FS) (dir config_path : Path) (dry : bool)
    (self : PipelineWrapper) (st0 st2 : State FS) :
  glob_pipeline_py E dir (fs st0) = [] ->
  2 <= length (glob_pipeline_py E dir (fs st2)) ->
  pipeline_class self = None ->
  repo_dir self = dir ->
  exists msg0 msg2,
    fst (load_pipeline_instance E dir config_path dry st0)
      = inl (Raise FileNotFoundError msg0)
    /\ fst (load_pipeline_instance E dir config_path dry st2)
      = inl (Raise FileNotFoundError msg2)
    /\ fst (get_pipeline_class E self st0) = inl (Raise FileNotFoundError msg0)
    /\ fst (get_pipeline_class E self st2) = inl (Raise FileNotFoundError msg2)
    /\ msg0 = no_implementation_msg dir
    /\ msg2 = multiple_implementations_msg dir (glob_pipeline_py E dir (fs st2))
    /\ msg0 <> msg2.
Proof.
  intros H0 H2 Hnone Hdir.
  exists (no_implementation_msg dir),
         (multiple_implementations_msg dir (glob_pipeline_py E dir (fs st2))).
  unfold load_pipeline_instance, get_pipeline_class.
  rewrite Hnone, Hdir.
  rewrite !(bind_raise _ _ _ _ _ (import_pipeline_module_none E dir st0 H0)).
  rewrite !(bind_raise _ _ _ _ _ (import_pipeline_module_many E dir st2 H2)).
  repeat split. apply discovery_messages_differ.
Qed.

End LoaderFacts.

Lemma discovery_errors_same_kind_distinct_messages_witness :
  exists msg0 msg2,
    fst (Loader.load_pipeline_instance (Demo.env false) "pipelines/cam/repo"
           "pipelines/cam/pipeline.yml" false (Demo.state []))
      = inl (Raise FileNotFoundError msg0)
    /\ fst (Loader.load_pipeline_instance (Demo.env false) "pipelines/cam/repo"
           "pipelines/cam/pipeline.yml" false
           (Demo.state ["pipelines/cam/repo/a.pipeline.py";
                        "pipelines/cam/repo/old/b.pipeline.py"]))
      = inl (Raise FileNotFoundError msg2)
    /\ fst (Loader.get_pipeline_class (Demo.env false) Demo.wrapper
              (Demo.state []))
      = inl (Raise FileNotFoundError msg0)
    /\ fst (Loader.get_pipeline_class (Demo.env false) Demo.wrapper
              (Demo.state ["pipelines/cam/repo/a.pipeline.py";
                           "pipelines/cam/repo/old/b.pipeline.py"]))
      = inl (Raise FileNotFoundError msg2)
    /\ msg0 = Loader.no_implementation_msg "pipelines/cam/repo"
    /\ msg2 = Loader.multiple_implementations_msg "pipelines/cam/repo"
                ["pipelines/cam/repo/a.pipeline.py";
                 "pipelines/cam/repo/old/b.pipeline.py"]
    /\ msg0 <> msg2.
Proof.
  apply (discovery_errors_same_kind_distinct_messages (Demo.env false)
           "pipelines/cam/repo" "pipelines/cam/pipeline.yml" false Demo.wrapper
           (Demo.state [])
           (Demo.state ["pipelines/cam/repo/a.pipeline.py";
                        "pipelines/cam/repo/old/b.pipeline.py"])).
  - reflexivity.
  - simpl. lia.
  - reflexivity.
  - reflexivity.
Defined.

(** C2 as first stated fails: with no plugin-definition file and with two
    of them the load raises an exception of one and the same class. *)
Lemma discovery_errors_not_distinct_kinds :
  ~ (forall (E : Loader.Env Demo.Disk) (dir config_path : Path) (dry : bool)
            (st0 st2 : Loader.State Demo.Disk) (e0 e2 : exn),
       Loader.glob_pipeline_py E dir (Loader.fs st0) = [] ->
       2 <= length (Loader.glob_pipeline_py E dir (Loader.fs st2)) ->
       fst (Loader.load_pipeline_instance E dir config_path dry st0) = inl e0 ->
       fst (Loader.load_pipeline_instance E dir config_path dry st2) = inl e2 ->
       exn_kind e0 <> exn_kind e2).
Proof.
  intros H.
  refine (H (Demo.env false) "pipelines/cam/repo" "pipelines/cam/pipeline.yml"
            false (Demo.state [])
            (Demo.state ["pipelines/cam/repo/a.pipeline.py";
                         "pipelines/cam/repo/old/b.pipeline.py"])
            _ _ _ _ eq_refl eq_refl _).
  - reflexivity.
  - simpl. lia.
  - reflexivity.
Qed.

(* ===================================================================== *)
(** ** The module search path during a load *)
(* ===================================================================== *)

Section SysPathFacts.
Import Loader.
Context {FS : Type} (E : Env FS).


(** When executing the module raises, the exception leaves the function
    between [sys.path.insert(0, ...)] and [sys.path.pop(0)]: the
    repository entry stays. *)
Lemma import_pipeline_module_exec_raises
    (dir p : Path) (spec : ModuleSpec) (st : State FS) (e : exn) (fs' : FS) :
  glob_pipeline_py E dir (fs st) = [p] ->
  spec_from_file_location E (path_stem p) (absolute E p) (fs st) = Some spec ->
  spec_has_loader spec = true ->
  exec_module E spec (fs st) (absolute E dir :: sys_path st)
    = (inl e, (fs', absolute E dir :: sys_path st)) ->
  import_pipeline_module E dir st =
  (inl e,
   Build_State fs' (absolute E dir :: sys_path st)
     (events st ++ [EvScan dir] ++ [EvExecModule (spec_origin spec)])).
Proof.
  intros Hglob Hspec Hloader Hexec. unfold import_pipeline_module.
  rewrite (bind_step _ _ _ _ _ (scan_run E dir st)). cbn [fs].
  rewrite Hglob. unfold bind, gets, sys_path_insert0, modify. cbn [fs].
  rewrite Hspec, Hloader. cbn [negb].
  unfold run_exec_module, bind, record, modify. cbn [fs sys_path events].
  rewrite Hexec. now rewrite <- app_assoc.
Qed.

(** The same holds for a module spec without a loader. *)
Lemma import_pipeline_module_no_loader
    (dir p : Path) (spec : ModuleSpec) (st : State FS) :
  glob_pipeline_py E dir (fs st) = [p] ->
  spec_from_file_location E (path_stem p) (absolute E p) (fs st) = Some spec ->
  spec_has_loader spec = false ->
  sys_path (snd (import_pipeline_module E dir st))
    = absolute E dir :: sys_path st.
Proof.
  intros Hglob Hspec Hloader. unfold import_pipeline_module.
  rewrite (bind_step _ _ _ _ _ (scan_run E dir st)). cbn [fs].
  rewrite Hglob. unfold bind, gets, sys_path_insert0, modify. cbn [fs].
  rewrite Hspec, Hloader. reflexivity.
Qed.

End SysPathFacts.

(** C3 fails on the code.  With one plugin-definition file whose execution
    raises [ImportError], both [load_pipeline_instance] and
    [get_pipeline_class] let the exception out with the repository still
    first on [sys.path]. *)
Theorem sys_path_not_restored_when_exec_raises :
  let st := Demo.state ["pipelines/cam/repo/cam.pipeline.py"] in
  let loaded :=
    Loader.load_pipeline_instance (Demo.env true) "pipelines/cam/repo"
      "pipelines/cam/pipeline.yml" false st in
  let got := Loader.get_pipeline_class (Demo.env true) Demo.wrapper st in
  fst loaded = inl (Raise ImportError "No module named 'numpy'")
  /\ Loader.sys_path (snd loaded)
       = "/work/pipelines/cam/repo" :: Loader.sys_path st
  /\ Loader.sys_path (snd loaded) <> Loader.sys_path st
  /\ fst got = inl (Raise ImportError "No module named 'numpy'")
  /\ Loader.sys_path (snd got)
       = "/work/pipelines/cam/repo" :: Loader.sys_path st
  /\ Loader.sys_path (snd got) <> Loader.sys_path st.
Proof. vm_compute. repeat split; discriminate. Qed.

(** On the same installation a module that executes normally leaves
    [sys.path] as it was. *)
Example sys_path_restored_on_success :
  let st := Demo.state ["pipelines/cam/repo/cam.pipeline.py"] in
  let loaded :=
    Loader.load_pipeline_instance (Demo.env false) "pipelines/cam/repo"
      "pipelines/cam/pipeline.yml" false st in
  fst loaded
    = inr {| Loader.inst_class := Demo.CamPipeline;
             Loader.inst_root_path := "pipelines/cam/repo";
             Loader.inst_config := [("fps", PyInt 25)];
             Loader.inst_dry_run := false |}
  /\ Loader.sys_path (snd loaded) = Loader.sys_path st.
Proof. vm_compute. split; reflexivity. Qed.

(* ===================================================================== *)
(** ** [PipelineWrapper]: the class cache and [save_config] *)
(* ===================================================================== *)

Section WrapperFacts.
Import Loader.
Context {FS : Type}.

Lemma get_pipeline_class_sets_cache (E : Env FS) (self self' : PipelineWrapper)
    (c : PyClass) (st st' : State FS) :
  get_pipeline_class E self st = (inr (self', Some c), st') ->
  pipeline_class self' = Some c.
Proof.
  unfold get_pipeline_class.
  destruct (pipeline_class self) as [c0|] eqn:Hc.
  - unfold ret. intros [= <- <- <-]. exact Hc.
  - intros H. apply bind_inr in H as (module_dict & st1 & _ & H).
    unfold ret in H. injection H as <- H _. exact H.
Qed.

Lemma get_pipeline_class_hit (E : Env FS) (self : PipelineWrapper)
    (c : PyClass) (st : State FS) :
  pipeline_class self = Some c ->
  get_pipeline_class E self st = (inr (self, Some c), st).
Proof. unfold get_pipeline_class. now intros ->. Qed.

Lemma get_pipeline_class_times_hit (E : Env FS) (self : PipelineWrapper)
    (c : PyClass) (n : nat) (st : State FS) :
  pipeline_class self = Some c ->
  get_pipeline_class_times E n self st = (inr (self, repeat (Some c) n), st).
Proof.
  intros Hc. induction n as [|n IH]; [reflexivity|].
  cbn [get_pipeline_class_times].
  rewrite (bind_step _ _ _ _ _ (get_pipeline_class_hit E self c st Hc)).
  now rewrite (bind_step _ _ _ _ _ IH).
Qed.

(** C4.  Once a call of [get_pipeline_class] has resolved a class, any
    number of further calls on that wrapper return that same class and
    leave the state as it is: no scan and no module execution is
    recorded, whatever the disk and the interpreter have become by then. *)
Theorem get_pipeline_class_cached
    (E : Env FS) (self self' : PipelineWrapper) (c : PyClass)
    (st st' : State FS) :
  get_pipeline_class E self st = (inr (self', Some c), st') ->
  forall (E' : Env FS) (n : nat) (st2 : State FS),
    get_pipeline_class_times E' n self' st2
      = (inr (self', repeat (Some c) n), st2)
    /\ get_pipeline_class E' self' st2 = (inr (self', Some c), st2).
Proof.
  intros H E' n st2.
  pose proof (get_pipeline_class_sets_cache _ _ _ _ _ _ H) as Hc.
  split.
  - now apply get_pipeline_class_times_hit.
  - now apply get_pipeline_class_hit.
Qed.

(** C8.  [save_config] with [None] or with an empty mapping returns
    without touching anything: no write is recorded and the disk is the
    one it started from.  A mapping with at least one entry is handed to
    the configuration writer, once. *)
Theorem save_config_writes_only_nonempty
    (E : Env FS) (self : PipelineWrapper) (config : option Config)
    (st : State FS) :
  (config = None \/ config = Some [] ->
   save_config E self config st = (inr tt, st))
  /\ (forall cfg,
        config = Some cfg -> cfg <> [] ->
        save_config E self config st =
        (fst (util_save_config E (config_path self) cfg (fs st)),
         Build_State
           (snd (util_save_config E (config_path self) cfg (fs st)))
           (sys_path st)
           (events st ++ [EvWriteConfig (config_path self) cfg])))
  /\ (events (snd (save_config E self config st)) <> events st ->
      exists cfg, config = Some cfg /\ cfg <> []).
Proof.
  repeat split.
  - intros [-> | ->]; reflexivity.
  - intros cfg -> Hne. destruct cfg as [|kv cfg]; [congruence|].
    unfold save_config, bind, record, modify.
    cbn [truthy_config fs sys_path events].
    now destruct (util_save_config E (config_path self) (kv :: cfg) (fs st)).
  - intros Hev. destruct config as [[|kv cfg]|].
    + now elim Hev.
    + exists (kv :: cfg). split; [reflexivity | discriminate].
    + now elim Hev.
Qed.

End WrapperFacts.

Lemma get_pipeline_class_cached_witness :
  let st := Demo.state ["pipelines/cam/repo/cam.pipeline.py"] in
  let self' := Loader.set_pipeline_class Demo.wrapper Demo.CamPipeline in
  Loader.get_pipeline_class_times (Demo.env true) 3 self' (Demo.state [])
    = (inr (self', repeat (Some Demo.CamPipeline) 3), Demo.state [])
  /\ Loader.get_pipeline_class (Demo.env true) self' (Demo.state [])
    = (inr (self', Some Demo.CamPipeline), Demo.state []).
Proof.
  exact (get_pipeline_class_cached (Demo.env false) Demo.wrapper
           (Loader.set_pipeline_class Demo.wrapper Demo.CamPipeline)
           Demo.CamPipeline
           (Demo.state ["pipelines/cam/repo/cam.pipeline.py"])
           (snd (Loader.get_pipeline_class (Demo.env false) Demo.wrapper
                   (Demo.state ["pipelines/cam/repo/cam.pipeline.py"])))
           eq_refl (Demo.env true) 3 (Demo.state [])).
Defined.

Lemma save_config_writes_only_nonempty_witness :
  Loader.save_config (Demo.env false) Demo.wrapper None (Demo.state [])
    = (inr tt, Demo.state [])
  /\ Loader.save_config (Demo.env false) Demo.wrapper (Some []) (Demo.state [])
    = (inr tt, Demo.state [])
  /\ Demo.config_files
       (Loader.fs (snd (Loader.save_config (Demo.env false) Demo.wrapper
                          (Some [("fps", PyInt 50)]) (Demo.state []))))
     = [("pipelines/cam/pipeline.yml", [("fps", PyInt 50)])].
Proof.
  split; [|split].
  - apply (save_config_writes_only_nonempty (Demo.env false) Demo.wrapper
             None (Demo.state [])). now left.
  - apply (save_config_writes_only_nonempty (Demo.env false) Demo.wrapper
             (Some []) (Demo.state [])). now right.
  - rewrite (proj1 (proj2 (save_config_writes_only_nonempty (Demo.env false)
               Demo.wrapper (Some [("fps", PyInt 50)]) (Demo.state [])))
               [("fps", PyInt 50)] eq_refl); [reflexivity | discriminate].
Defined.

(* ===================================================================== *)
(** ** [ProjectWrapper]: dispatch, composition, update *)
(* ===================================================================== *)

Section ProjectFacts.
Import Project.
Context {World PW DW Pipeline CR : Type}.
Context (X : Externals World PW DW Pipeline CR).

Lemma merged_keyword_args_run (kwargs : dict pyval)
    (extra_args : option (list string)) (st : State World) :
  exists merged,
    fst (MergedArgs.get_merged_keyword_args kwargs extra_args) = inr merged
    /\ merged_keyword_args kwargs extra_args st =
       (inr merged,
        Build_State (world st) (invocations st)
          (log st ++ snd (MergedArgs.get_merged_keyword_args kwargs extra_args))).
Proof.
  unfold merged_keyword_args. rewrite get_merged_keyword_args_eq.
  unfold MergedArgs.spec_merged_keyword_args. eexists.
  split; reflexivity.
Qed.

Lemma load_pipelines_keeps_invocations (items : dict PW) :
  forall acc st r st',
    load_pipelines X items acc st = (r, st') ->
    invocations st' = invocations st.
Proof.
  induction items as [|[name wrapper] rest IH]; intros acc st r st'.
  - intros [= _ <-]. reflexivity.
  - cbn [load_pipelines]. unfold bind, effect.
    destruct (load_pipeline X wrapper (world st)) as [[e|inst] w].
    + intros [= _ <-]. reflexivity.
    + intros H. apply IH in H. exact H.
Qed.

Lemma check_command_exists_keeps_state (command_name : string)
    (items : dict Pipeline) (st : State World) :
  snd (check_command_exists X command_name items st) = st.
Proof.
  induction items as [|[name inst] rest IH]; [reflexivity|].
  cbn [check_command_exists].
  destruct (hasattr X inst command_name); [exact IH | reflexivity].
Qed.

(** The check stops at the first instance without the operation. *)
Lemma check_command_exists_missing (command_name : string)
    (items : dict Pipeline) (st : State World) :
  (exists name inst,
     In (name, inst) items /\ hasattr X inst command_name = false) ->
  exists name inst,
    In (name, inst) items /\ hasattr X inst command_name = false
    /\ check_command_exists X command_name items st =
       (inl (Raise RunCommandError (no_command_msg command_name name)), st).
Proof.
  induction items as [|[name0 inst0] rest IH].
  - intros (? & ? & [] & _).
  - intros (name & inst & Hin & Hno). cbn [check_command_exists].
    destruct (hasattr X inst0 command_name) eqn:Hhas; cbn [negb].
    + destruct Hin as [[= -> ->]|Hin]; [congruence|].
      destruct IH as (n & i & Hin' & Hno' & Hrun); [now exists name, inst|].
      exists n, i. repeat split; auto. now right.
    + exists name0, inst0. repeat split; auto. now left.
Qed.


(** [run_command] is [run_command_loaded] followed by the check and the
    dispatch. *)
Lemma run_command_unfold (self : ProjectWrapper PW DW) (command_name : string)
    (pipeline_name deployment_name : option string)
    (extra_args : option (list string)) (kwargs : dict pyval)
    (st : State World) :
  run_command X self command_name pipeline_name deployment_name extra_args
    kwargs st =
  bind (run_command_loaded X self pipeline_name deployment_name extra_args
          kwargs)
       (fun '(merged_kwargs, deployment_wrappers_to_run, pipeline_to_run) =>
          bind (check_command_exists X command_name pipeline_to_run)
               (fun _ =>
                  invoke_deployments X command_name merged_kwargs
                    pipeline_to_run deployment_wrappers_to_run []))
       st.
Proof.
  unfold run_command, run_command_loaded.
  destruct (merged_keyword_args_run kwargs extra_args st) as (m & _ & Hm).
  unfold bind. rewrite Hm.
  set (st1 := Build_State _ _ _).
  destruct pipeline_name as [pn|], deployment_name as [dn|];
    try destruct (dict_get pn (pipeline_wrappers self));
    try destruct (dict_get dn (deployment_wrappers self));
    unfold raise, ret; try reflexivity;
    match goal with
    | |- context [load_pipelines X ?items [] st1] =>
        destruct (load_pipelines X items [] st1) as [[?|?] ?]; reflexivity
    end.
Qed.

Lemma run_command_loaded_keeps_invocations (self : ProjectWrapper PW DW)
    (pipeline_name deployment_name : option string)
    (extra_args : option (list string)) (kwargs : dict pyval)
    (st st' : State World) r :
  run_command_loaded X self pipeline_name deployment_name extra_args kwargs st
    = (r, st') ->
  invocations st' = invocations st.
Proof.
  unfold run_command_loaded.
  destruct (merged_keyword_args_run kwargs extra_args st) as (m & _ & Hm).
  unfold bind at 1. rewrite Hm.
  set (st1 := Build_State _ _ _).
  assert (H1 : invocations st1 = invocations st) by reflexivity.
  destruct pipeline_name as [pn|], deployment_name as [dn|];
    try destruct (dict_get pn (pipeline_wrappers self));
    try destruct (dict_get dn (deployment_wrappers self));
    unfold bind, raise, ret;
    try (intros [= _ <-]; exact H1);
    match goal with
    | |- context [load_pipelines X ?items [] st1] =>
        destruct (load_pipelines X items [] st1) as [[?|?] st2] eqn:Hload;
        apply load_pipelines_keeps_invocations in Hload;
        intros [= _ <-]; congruence
    end.
Qed.

(** C1.  Once the targeted pipelines are resolved and their plugin
    instances loaded, a [command_name] that one of the instances lacks
    makes [run_command] raise [RunCommandError] with the message naming a
    pipeline whose instance lacks it, and no plugin operation has been
    invoked by then: the record of invocations is the one the call started
    with. *)
Theorem run_command_missing_command_no_invocation
    (self : ProjectWrapper PW DW) (command_name : string)
    (pipeline_name deployment_name : option string)
    (extra_args : option (list string)) (kwargs merged_kwargs : dict pyval)
    (deployment_wrappers_to_run : dict DW) (pipeline_to_run : dict Pipeline)
    (st st1 : State World) :
  run_command_loaded X self pipeline_name deployment_name extra_args kwargs st
    = (inr (merged_kwargs, deployment_wrappers_to_run, pipeline_to_run), st1) ->
  (exists name inst,
     In (name, inst) pipeline_to_run /\ hasattr X inst command_name = false) ->
  exists name inst,
    In (name, inst) pipeline_to_run
    /\ hasattr X inst command_name = false
    /\ run_command X self command_name pipeline_name deployment_name
         extra_args kwargs st
       = (inl (Raise RunCommandError (no_command_msg command_name name)), st1)
    /\ invocations st1 = invocations st.
Proof.
  intros Hloaded Hmissing.
  destruct (check_command_exists_missing command_name pipeline_to_run st1
              Hmissing) as (name & inst & Hin & Hno & Hcheck).
  exists name, inst. repeat split; auto.
  - rewrite run_command_unfold.
    rewrite (bind_step _ _ _ _ _ Hloaded).
    now rewrite (bind_raise _ _ _ _ _ Hcheck).
  - eapply run_command_loaded_keeps_invocations, Hloaded.
Qed.

(** *** [update_pipelines] *)

(** One turn of the update loop, whatever the update does, as long as
    what it raises is an [Exception]. *)
Lemma update_loop_step (name : string) (wrapper : PW) (rest : dict PW)
    (st : State World) :
  (forall e w', update X wrapper (world st) = (inl e, w') ->
                is_Exception e = true) ->
  update_loop X ((name, wrapper) :: rest) st =
  update_loop X rest
    (Build_State (snd (update X wrapper (world st)))
       (invocations st ++ [EvUpdate name])
       (log st ++
        update_log_entries
          (name, match fst (update X wrapper (world st)) with
                 | inl e => Some e
                 | inr _ => None
                 end))).
Proof.
  intros Hexc. cbn [update_loop].
  unfold bind, try_except, emit, record, effect, modify.
  cbn [world invocations log].
  destruct (update X wrapper (world st)) as [[e|[]] w'] eqn:Hupd;
    cbn [fst snd update_log_entries world invocations log].
  - rewrite (Hexc e w' eq_refl). now rewrite <- app_assoc.
  - now rewrite <- app_assoc.
Qed.

Lemma update_loop_spec (items : dict PW) :
  forall st,
    (forall name wrapper w e w',
       In (name, wrapper) items -> update X wrapper w = (inl e, w') ->
       is_Exception e = true) ->
    exists st',
      update_loop X items st = (inr tt, st')
      /\ invocations st' = invocations st ++ map EvUpdate (dict_keys items)
      /\ log st' =
         log st ++
         flat_map update_log_entries
           (combine (dict_keys items) (update_outcomes X items (world st)))
      /\ length (update_outcomes X items (world st)) = length items.
Proof.
  induction items as [|[name wrapper] rest IH]; intros st Hexc.
  - exists st. cbn. rewrite !app_nil_r. repeat split.
  - rewrite update_loop_step by (intros e w'; apply (Hexc name wrapper); now left).
    match goal with |- context [update_loop X rest ?s] => set (st1 := s) end.
    destruct (IH st1) as (st' & Hrun & Hinv & Hlog & Hlen).
    { intros n wr w e w' Hin. apply (Hexc n wr). now right. }
    exists st'. split; [exact Hrun|].
    subst st1. cbn [world invocations log] in *.
    cbn [update_outcomes dict_keys map fst].
    destruct (update X wrapper (world st)) as [[e|[]] w1];
      cbn [fst snd combine flat_map length] in *;
      rewrite Hinv, Hlog, Hlen, <- !app_assoc; repeat split.
Qed.

Lemma update_attempts_map (names : list string) :
  update_attempts (map EvUpdate names) = names.
Proof.
  induction names as [|n names IH]; [reflexivity|].
  cbn. unfold update_attempts in IH. now rewrite IH.
Qed.

(** C7.  [update_pipelines] returns normally and has, by then, called the
    update of every registered pipeline, in registration order and once
    each; a pipeline whose update raised an exception got an error record
    in the log and the loop went on to the next one.  ([except Exception]
    lets [KeyboardInterrupt] and [SystemExit] through, hence the
    hypothesis.) *)
Theorem update_pipelines_attempts_every_pipeline
    (self : ProjectWrapper PW DW) (st : State World) :
  (forall name wrapper w e w',
     In (name, wrapper) (pipeline_wrappers self) ->
     update X wrapper w = (inl e, w') -> is_Exception e = true) ->
  exists st' evs,
    update_pipelines X self st = (inr tt, st')
    /\ invocations st' = invocations st ++ evs
    /\ evs = map EvUpdate (dict_keys (pipeline_wrappers self))
    /\ update_attempts evs = dict_keys (pipeline_wrappers self)
    /\ (NoDup (dict_keys (pipeline_wrappers self)) ->
        forall name, In name (dict_keys (pipeline_wrappers self)) ->
                     count_occ string_dec (update_attempts evs) name = 1)
    /\ log st' =
       log st ++
       flat_map update_log_entries
         (combine (dict_keys (pipeline_wrappers self))
            (update_outcomes X (pipeline_wrappers self) (world st)))
    /\ length (update_outcomes X (pipeline_wrappers self) (world st))
       = length (pipeline_wrappers self).
Proof.
  intros Hexc. unfold update_pipelines.
  destruct (update_loop_spec (pipeline_wrappers self) st Hexc)
    as (st' & Hrun & Hinv & Hlog & Hlen).
  exists st', (map EvUpdate (dict_keys (pipeline_wrappers self))).
  rewrite update_attempts_map. repeat split; auto.
  intros Hnd name Hin. now apply NoDup_count_occ'.
Qed.

(** *** [compose] *)

Lemma get_deployment_wrappers_found (self : ProjectWrapper PW DW)
    (names : list string) :
  forall acc (st : State World),
    (forall n, In n names ->
               exists dw, dict_get n (deployment_wrappers self) = Some dw) ->
    exists dws,
      get_deployment_wrappers self names acc st = (inr (acc ++ dws), st)
      /\ map (fun n => dict_get n (deployment_wrappers self)) names
         = map Some dws.
Proof.
  induction names as [|n names IH]; intros acc st Hall.
  - exists []. now rewrite app_nil_r.
  - destruct (Hall n (or_introl eq_refl)) as (dw & Hdw).
    destruct (IH (acc ++ [dw]) st) as (dws & Hrun & Hmap).
    { intros n' Hin. apply Hall. now right. }
    exists (dw :: dws). cbn [get_deployment_wrappers map].
    rewrite Hdw, Hrun, Hmap, <- app_assoc. now split.
Qed.

Lemma load_configs_loaded (dws : list DW) (st : State World) :
  (forall dw, In dw dws -> exists cfg, load_config X dw (world st) = inr cfg) ->
  exists cfgs,
    load_configs X dws st = (inr cfgs, st)
    /\ map (fun dw => load_config X dw (world st)) dws = map inr cfgs.
Proof.
  induction dws as [|dw dws IH]; intros Hall.
  - now exists [].
  - destruct (Hall dw (or_introl eq_refl)) as (cfg & Hcfg).
    destruct IH as (cfgs & Hrun & Hmap).
    { intros dw' Hin. apply Hall. now right. }
    exists (cfg :: cfgs). cbn [load_configs map].
    unfold bind, query. rewrite Hcfg, Hrun, Hmap. now split.
Qed.

(** C6.  When the pipeline is registered and loads, and every name in
    [deployment_names] is a registered deployment whose configuration
    loads, [compose] calls the plugin's [run_compose] once, with a list of
    data directories and a list of configurations that both follow
    [deployment_names]: at every index, the data directory and the
    configuration are those of the deployment named at that index. *)
Theorem compose_passes_lists_in_given_order
    (self : ProjectWrapper PW DW) (pipeline_name : string)
    (deployment_names : list string) (extra_args : option (list string))
    (kwargs : dict pyval) (st : State World)
    (pipeline_wrapper : PW) (pipeline : Pipeline) (w1 : World) :
  dict_get pipeline_name (pipeline_wrappers self) = Some pipeline_wrapper ->
  load_pipeline X pipeline_wrapper (world st) = (inr pipeline, w1) ->
  (forall n, In n deployment_names ->
             exists dw cfg,
               dict_get n (deployment_wrappers self) = Some dw
               /\ load_config X dw w1 = inr cfg) ->
  exists data_dirs configs merged_kwargs,
    invocations (snd (compose X self pipeline_name deployment_names
                        extra_args kwargs st))
      = invocations st
        ++ [EvCompose pipeline_name data_dirs configs merged_kwargs]
    /\ fst (compose X self pipeline_name deployment_names extra_args kwargs st)
       = fst (run_compose X pipeline data_dirs configs merged_kwargs w1)
    /\ fst (MergedArgs.get_merged_keyword_args kwargs extra_args)
       = inr merged_kwargs
    /\ length data_dirs = length deployment_names
    /\ length configs = length deployment_names
    /\ forall i n,
         nth_error deployment_names i = Some n ->
         exists dw cfg,
           dict_get n (deployment_wrappers self) = Some dw
           /\ load_config X dw w1 = inr cfg
           /\ nth_error data_dirs i
              = Some (get_pipeline_data_dir X dw pipeline_name)
           /\ nth_error configs i = Some cfg.
Proof.
  intros Hpw Hload Hall.
  destruct (merged_keyword_args_run kwargs extra_args st) as (m & Hm & Hrun).
  set (st1 := Build_State w1 (invocations st)
                (log st ++ snd (MergedArgs.get_merged_keyword_args kwargs
                                  extra_args))).
  destruct (get_deployment_wrappers_found self deployment_names [] st1)
    as (dws & Hdws & Hmapd).
  { intros n Hin. destruct (Hall n Hin) as (dw & _ & Hdw & _). eauto. }
  destruct (load_configs_loaded dws st1) as (cfgs & Hcfgs & Hmapc).
  { intros dw Hin. apply In_nth_error in Hin as (i & Hi).
    assert (Hn : nth_error (map Some dws) i = Some (Some dw))
      by (rewrite nth_error_map, Hi; reflexivity).
    rewrite <- Hmapd, nth_error_map in Hn.
    destruct (nth_error deployment_names i) as [n|] eqn:Hni; [|discriminate].
    injection Hn as Hn.
    destruct (Hall n (nth_error_In _ _ Hni)) as (dw' & cfg & Hdw' & Hcfg).
    exists cfg. cbn [world st1]. congruence. }
  exists (map (fun dw => get_pipeline_data_dir X dw pipeline_name) dws), cfgs, m.
  assert (Hcompose :
    compose X self pipeline_name deployment_names extra_args kwargs st =
    call_run_compose X pipeline_name pipeline
      (map (fun dw => get_pipeline_data_dir X dw pipeline_name) dws)
      cfgs m st1).
  { unfold compose. rewrite (bind_step _ _ _ _ _ Hrun), Hpw.
    unfold bind at 1. unfold effect at 1. cbn [world]. rewrite Hload.
    fold st1. cbn [app] in Hdws.
    rewrite (bind_step _ _ _ _ _ Hdws).
    now rewrite (bind_step _ _ _ _ _ Hcfgs). }
  rewrite Hcompose. unfold call_run_compose, bind, record, effect, modify.
  cbn [world invocations log st1].
  assert (Hlen_d : length dws = length deployment_names).
  { apply (f_equal (@length _)) in Hmapd. now rewrite !length_map in Hmapd. }
  assert (Hlen_c : length cfgs = length dws).
  { apply (f_equal (@length _)) in Hmapc. now rewrite !length_map in Hmapc. }
  destruct (run_compose X pipeline _ cfgs m w1) as [r w2].
  cbn [fst snd invocations]. rewrite length_map.
  repeat split; try congruence.
  intros i n Hni.
  assert (Hn : nth_error (map Some dws) i = Some (dict_get n (deployment_wrappers self)))
    by (rewrite <- Hmapd, nth_error_map, Hni; reflexivity).
  rewrite nth_error_map in Hn.
  destruct (nth_error dws i) as [dw|] eqn:Hdi; [|discriminate].
  injection Hn as Hn.
  assert (Hc : nth_error (map inr cfgs) i
               = Some (load_config X dw (world st1)))
    by (rewrite <- Hmapc, nth_error_map, Hdi; reflexivity).
  rewrite nth_error_map in Hc.
  destruct (nth_error cfgs i) as [cfg|] eqn:Hci; [|discriminate].
  injection Hc as Hc.
  exists dw, cfg. rewrite nth_error_map, Hdi. cbn [world st1] in Hc.
  repeat split; auto.
Qed.

End ProjectFacts.

Lemma run_command_missing_command_no_invocation_witness :
  exists name inst,
    In (name, inst)
       [("camA", ["run_process"; "run_compose"]);
        ("camB", ["run_process"; "run_compose"; "run_import"])]
    /\ Project.hasattr DemoProject.externals inst "run_import" = false
    /\ Project.run_command DemoProject.externals DemoProject.project
         "run_import" None None (Some ["overwrite=yes"]) [] DemoProject.start
       = (inl (Raise RunCommandError
                 (Project.no_command_msg "run_import" name)),
          DemoProject.start)
    /\ Project.invocations DemoProject.start
       = Project.invocations DemoProject.start.
Proof.
  apply (run_command_missing_command_no_invocation DemoProject.externals
           DemoProject.project "run_import" None None (Some ["overwrite=yes"])
           [] [("overwrite", PyStr "yes")]
           (Project.deployment_wrappers DemoProject.project)).
  - reflexivity.
  - exists "camA", ["run_process"; "run_compose"]. split; [now left | reflexivity].
Defined.

Lemma update_pipelines_attempts_every_pipeline_witness :
  exists st' evs,
    Project.update_pipelines DemoProject.externals DemoProject.project
      DemoProject.start = (inr tt, st')
    /\ Project.invocations st' = Project.invocations DemoProject.start ++ evs
    /\ evs = map Project.EvUpdate
               (dict_keys (Project.pipeline_wrappers DemoProject.project))
    /\ Project.update_attempts evs
       = dict_keys (Project.pipeline_wrappers DemoProject.project)
    /\ (NoDup (dict_keys (Project.pipeline_wrappers DemoProject.project)) ->
        forall name,
          In name (dict_keys (Project.pipeline_wrappers DemoProject.project)) ->
          count_occ string_dec (Project.update_attempts evs) name = 1)
    /\ Project.log st' =
       Project.log DemoProject.start ++
       flat_map Project.update_log_entries
         (combine (dict_keys (Project.pipeline_wrappers DemoProject.project))
            (Project.update_outcomes DemoProject.externals
               (Project.pipeline_wrappers DemoProject.project)
               (Project.world DemoProject.start)))
    /\ length (Project.update_outcomes DemoProject.externals
                 (Project.pipeline_wrappers DemoProject.project)
                 (Project.world DemoProject.start))
       = length (Project.pipeline_wrappers DemoProject.project).
Proof.
  apply (update_pipelines_attempts_every_pipeline DemoProject.externals
           DemoProject.project DemoProject.start).
  intros name wrapper w e w' _. cbn.
  destruct (DemoProject.pull_fails wrapper); intros [= <- _]; reflexivity.
Defined.

(** The update run of the demonstration project: [camA]'s pull fails, is
    logged, and [camB] is still updated. *)
Example update_pipelines_demo :
  Project.update_pipelines DemoProject.externals DemoProject.project
    DemoProject.start
  = (inr tt,
     {| Project.world := 1;
        Project.invocations := [Project.EvUpdate "camA"; Project.EvUpdate "camB"];
        Project.log :=
          [Log INFO (Project.updating_msg "camA");
           Log ERROR (Project.update_failed_msg "camA"
                        (Raise OtherException "git pull failed"));
           Log INFO (Project.updating_msg "camB");
           Log INFO (Project.updated_msg "camB")] |}).
Proof. reflexivity. Qed.

Lemma compose_passes_lists_in_given_order_witness :
  exists data_dirs configs merged_kwargs,
    Project.invocations
      (snd (Project.compose DemoProject.externals DemoProject.project "camB"
              ["dep2"; "dep1"] None [] DemoProject.start))
      = Project.invocations DemoProject.start
        ++ [Project.EvCompose "camB" data_dirs configs merged_kwargs]
    /\ fst (Project.compose DemoProject.externals DemoProject.project "camB"
              ["dep2"; "dep1"] None [] DemoProject.start)
       = fst (Project.run_compose DemoProject.externals
                ["run_process"; "run_compose"; "run_import"]
                data_dirs configs merged_kwargs 0)
    /\ fst (MergedArgs.get_merged_keyword_args [] None) = inr merged_kwargs
    /\ length data_dirs = 2
    /\ length configs = 2
    /\ forall i n,
         nth_error ["dep2"; "dep1"] i = Some n ->
         exists dw cfg,
           dict_get n (Project.deployment_wrappers DemoProject.project) = Some dw
           /\ Project.load_config DemoProject.externals dw 0 = inr cfg
           /\ nth_error data_dirs i
              = Some (Project.get_pipeline_data_dir DemoProject.externals dw "camB")
           /\ nth_error configs i = Some cfg.
Proof.
  apply (compose_passes_lists_in_given_order DemoProject.externals
           DemoProject.project "camB" ["dep2"; "dep1"] None []
           DemoProject.start
           {| DemoProject.operations := ["run_process"; "run_compose"; "run_import"];
              DemoProject.pull_fails := false |}).
  - reflexivity.
  - reflexivity.
  - intros n [<-|[<-|[]]]; eexists; eexists; split; reflexivity.
Defined.

(** The same composition, evaluated: [dep2] comes first in both lists. *)
Example compose_demo :
  fst (Project.compose DemoProject.externals DemoProject.project "camB"
         ["dep2"; "dep1"] None [] DemoProject.start)
  = inr [("deployments/dep2/camB", [("root", PyStr "deployments/dep2")]);
         ("deployments/dep1/camB", [("root", PyStr "deployments/dep1")])].
Proof. reflexivity. Qed.

(* ===================================================================== *)
(** ** [run_command]: the cross product *)
(* ===================================================================== *)

Section DispatchFacts.
Import Project.
Import Dispatch.
Context {World PW DW Pipeline CR : Type}.
Context (X : Externals World PW DW Pipeline CR).







(** *** When nothing raises *)







(** *** The calls behind the record *)








End DispatchFacts.

(** The dispatch of [run_process] over the demonstration project: two
    pipelines, two deployments, four calls, four leaves. *)
Example run_command_demo :
  Project.run_command DemoProject.externals DemoProject.project "run_process"
    None None (Some ["overwrite=yes"; "broken"]) [("dry_run", PyBool false)]
    DemoProject.start
  = (inr [("dep1", [("camA", PyStr "deployments/dep1/camA");
                    ("camB", PyStr "deployments/dep1/camB")]);
          ("dep2", [("camA", PyStr "deployments/dep2/camA");
                    ("camB", PyStr "deployments/dep2/camB")])],
     snd (Project.run_command DemoProject.externals DemoProject.project
            "run_process" None None (Some ["overwrite=yes"; "broken"])
            [("dry_run", PyBool false)] DemoProject.start)).
Proof. reflexivity. Qed.


(* ===================================================================== *)
(** ** [run_command]: filters and failures *)
(* ===================================================================== *)

Section RunCommandFilters.
Import Project.
Context {World PW DW Pipeline CR : Type}.
Context (X : Externals World PW DW Pipeline CR).

(** X1.  A pipeline filter that names no registered pipeline makes
    [run_command] raise [RunCommandError] about that instrument, whatever
    the deployment filter is; nothing was loaded and nothing invoked, only
    the warnings about malformed extra arguments have been logged. *)
Theorem run_command_unknown_pipeline
    (self : ProjectWrapper PW DW) (command_name name : string)
    (deployment_name : option string) (extra_args : option (list string))
    (kwargs : dict pyval) (st : State World) :
  dict_get name (pipeline_wrappers self) = None ->
  run_command X self command_name (Some name) deployment_name extra_args
    kwargs st
  = (inl (Raise RunCommandError (no_instrument_msg name)),
     Build_State (world st) (invocations st)
       (log st ++ snd (MergedArgs.get_merged_keyword_args kwargs extra_args))).
Proof.
  intros Hnone. unfold run_command.
  destruct (merged_keyword_args_run kwargs extra_args st) as (m & _ & Hm).
  rewrite (bind_step _ _ _ _ _ Hm), Hnone. reflexivity.
Qed.

(** X2.  A deployment filter that names no registered deployment makes
    [run_command] raise [RunCommandError] about that deployment, provided
    the pipeline filter, if there is one, names a registered pipeline; no
    plugin has been loaded by then. *)
Theorem run_command_unknown_deployment
    (self : ProjectWrapper PW DW) (command_name name : string)
    (pipeline_name : option string) (extra_args : option (list string))
    (kwargs : dict pyval) (st : State World) :
  dict_get name (deployment_wrappers self) = None ->
  (forall p, pipeline_name = Some p ->
             dict_get p (pipeline_wrappers self) <> None) ->
  run_command X self command_name pipeline_name (Some name) extra_args
    kwargs st
  = (inl (Raise RunCommandError (no_deployment_msg name)),
     Build_State (world st) (invocations st)
       (log st ++ snd (MergedArgs.get_merged_keyword_args kwargs extra_args))).
Proof.
  intros Hnone Hpipe. unfold run_command.
  destruct (merged_keyword_args_run kwargs extra_args st) as (m & _ & Hm).
  rewrite (bind_step _ _ _ _ _ Hm), Hnone.
  destruct pipeline_name as [p|]; [|reflexivity].
  destruct (dict_get p (pipeline_wrappers self)) eqn:Hp; [reflexivity|].
  now elim (Hpipe p eq_refl).
Qed.

(** X3.  With both filters naming registered entries, a plugin that loads,
    has the operation and returns from it is called once, on that pair, and
    the aggregate has the one leaf. *)
Theorem run_command_single_pair
    (self : ProjectWrapper PW DW) (command_name p d : string)
    (extra_args : option (list string)) (kwargs merged : dict pyval)
    (st : State World) (pw : PW) (dw : DW) (inst : Pipeline)
    (cfg : Config) (v : pyval) (w1 w2 : World) :
  dict_get p (pipeline_wrappers self) = Some pw ->
  dict_get d (deployment_wrappers self) = Some dw ->
  fst (MergedArgs.get_merged_keyword_args kwargs extra_args) = inr merged ->
  load_pipeline X pw (world st) = (inr inst, w1) ->
  hasattr X inst command_name = true ->
  load_config X dw w1 = inr cfg ->
  call_method X inst command_name (get_pipeline_data_dir X dw p) cfg merged w1
    = (inr v, w2) ->
  run_command X self command_name (Some p) (Some d) extra_args kwargs st
  = (inr [(d, [(p, v)])],
     Build_State w2
       (invocations st ++
        [EvInvoke d p command_name (get_pipeline_data_dir X dw p) cfg merged
           (inr v)])
       (log st ++ snd (MergedArgs.get_merged_keyword_args kwargs extra_args))).
Proof.
  intros Hp Hd Hmerged Hload Hhas Hcfg Hcall. unfold run_command.
  destruct (merged_keyword_args_run kwargs extra_args st) as (m & Hm' & Hm).
  assert (m = merged) by congruence. subst m.
  rewrite (bind_step _ _ _ _ _ Hm), Hp, Hd.
  unfold bind, ret, effect, query, invoke.
  cbn [load_pipelines check_command_exists invoke_deployments invoke_pipelines
       world invocations log dict_set].
  unfold bind, ret, effect, query, invoke. cbn [world invocations log].
  rewrite Hload. cbn [world invocations log].
  cbn [check_command_exists]. rewrite Hhas. cbn [negb]. unfold ret.
  cbn [invoke_pipelines]. unfold bind, query, invoke, ret.
  cbn [world invocations log].
  rewrite Hcfg, Hhas. cbn [world invocations log]. rewrite Hcall.
  reflexivity.
Qed.

End RunCommandFilters.

Lemma run_command_unknown_pipeline_witness :
  Project.run_command DemoProject.externals DemoProject.project "run_process"
    (Some "camZ") (Some "depZ") (Some ["broken"]) [] DemoProject.start
  = (inl (Raise RunCommandError (Project.no_instrument_msg "camZ")),
     Project.Build_State 0 []
       [MergedArgs.invalid_extra_warning "broken"]).
Proof.
  exact (run_command_unknown_pipeline DemoProject.externals DemoProject.project
           "run_process" "camZ" (Some "depZ") (Some ["broken"]) []
           DemoProject.start eq_refl).
Defined.

Lemma run_command_unknown_deployment_witness :
  Project.run_command DemoProject.externals DemoProject.project "run_process"
    (Some "camA") (Some "depZ") None [] DemoProject.start
  = (inl (Raise RunCommandError (Project.no_deployment_msg "depZ")),
     Project.Build_State 0 [] []).
Proof.
  apply (run_command_unknown_deployment DemoProject.externals
           DemoProject.project "run_process" "depZ" (Some "camA") None []
           DemoProject.start eq_refl).
  intros p [= <-]. discriminate.
Defined.

Lemma run_command_single_pair_witness :
  Project.run_command DemoProject.externals DemoProject.project "run_process"
    (Some "camB") (Some "dep2") (Some ["days=3"]) [] DemoProject.start
  = (inr [("dep2", [("camB", PyStr "deployments/dep2/camB")])],
     Project.Build_State 1
       [Project.EvInvoke "dep2" "camB" "run_process" "deployments/dep2/camB"
          [("root", PyStr "deployments/dep2")] [("days", PyStr "3")]
          (inr (PyStr "deployments/dep2/camB"))]
       []).
Proof.
  exact (run_command_single_pair DemoProject.externals DemoProject.project
           "run_process" "camB" "dep2" (Some ["days=3"]) []
           [("days", PyStr "3")] DemoProject.start
           {| DemoProject.operations :=
                ["run_process"; "run_compose"; "run_import"];
              DemoProject.pull_fails := false |}
           "deployments/dep2"
           ["run_process"; "run_compose"; "run_import"]
           [("root", PyStr "deployments/dep2")]
           (PyStr "deployments/dep2/camB") 0 1
           eq_refl eq_refl eq_refl eq_refl eq_refl eq_refl eq_refl).
Defined.

Section RunCommandFailures.
Import Project.
Context {World PW DW Pipeline CR : Type}.
Context (X : Externals World PW DW Pipeline CR).

Lemma invoke_pipelines_trace (command_name : string) (kw : dict pyval)
    (d : string) (dw : DW) (items : dict Pipeline) :
  forall acc st r st',
    invoke_pipelines X command_name kw d dw items acc st = (r, st') ->
    exists good tail,
      invocations st' = invocations st ++ good ++ tail
      /\ forallb Dispatch.returned good = true
      /\ (tail = [] \/
          exists e ev, tail = [ev] /\ Dispatch.raised e ev /\ r = inl e).
Proof.
  induction items as [|[p inst] rest IH]; intros acc st r st'.
  - intros [= <- <-]. exists [], []. rewrite app_nil_r. auto.
  - cbn [invoke_pipelines]. unfold bind at 1. unfold query.
    destruct (load_config X dw (world st)) as [e|cfg].
    { intros [= <- <-]. exists [], []. rewrite app_nil_r. auto. }
    unfold bind at 1. unfold invoke.
    destruct (hasattr X inst command_name).
    2:{ intros [= <- <-]. exists [], []. rewrite app_nil_r. auto. }
    destruct (call_method X inst command_name _ cfg kw (world st))
      as [[e|v] w].
    + intros [= <- <-]. cbn [invocations].
      exists [], [EvInvoke d p command_name (get_pipeline_data_dir X dw p)
                    cfg kw (inl e)].
      repeat split. right. eexists; eexists. split; [reflexivity|].
      split; [|reflexivity]. unfold Dispatch.raised. eauto 10.
    + intros Hrun. apply IH in Hrun as (good & tail & Hinv & Hgood & Htail).
      cbn [invocations] in Hinv.
      exists (EvInvoke d p command_name (get_pipeline_data_dir X dw p)
                cfg kw (inr v) :: good), tail.
      split; [|split; [exact Hgood | exact Htail]].
      rewrite Hinv, <- app_assoc. reflexivity.
Qed.

Lemma invoke_deployments_trace (command_name : string) (kw : dict pyval)
    (insts : dict Pipeline) (items : dict DW) :
  forall acc st r st',
    invoke_deployments X command_name kw insts items acc st = (r, st') ->
    exists good tail,
      invocations st' = invocations st ++ good ++ tail
      /\ forallb Dispatch.returned good = true
      /\ (tail = [] \/
          exists e ev, tail = [ev] /\ Dispatch.raised e ev /\ r = inl e).
Proof.
  induction items as [|[d dw] rest IH]; intros acc st r st'.
  - intros [= <- <-]. exists [], []. rewrite app_nil_r. auto.
  - cbn [invoke_deployments]. unfold bind at 1.
    destruct (invoke_pipelines X command_name kw d dw insts [] st)
      as [[e|row] st1] eqn:Hrow;
      apply invoke_pipelines_trace in Hrow
        as (good & tail & Hinv & Hgood & Htail).
    + intros [= <- <-]. exists good, tail. split; [exact Hinv|].
      split; [exact Hgood|].
      destruct Htail as [->|(e' & ev & -> & Hr & [= ->])]; [now left|].
      right. exists e', ev. auto.
    + destruct Htail as [->|(e & ev & _ & _ & [=])].
      intros Hrun. apply IH in Hrun as (good' & tail' & Hinv' & Hgood' & Htail').
      exists (good ++ good'), tail'. repeat split; auto.
      * rewrite Hinv', Hinv, app_nil_r, <- !app_assoc. reflexivity.
      * rewrite forallb_app, Hgood, Hgood'. reflexivity.
Qed.

(** X4.  However [run_command] ends, the calls it has made by then are a
    run of calls that returned followed by at most one call that raised;
    when there is such a call it is the last one, and its exception is what
    [run_command] raises. *)
Theorem run_command_fail_fast
    (self : ProjectWrapper PW DW) (command_name : string)
    (pipeline_name deployment_name : option string)
    (extra_args : option (list string)) (kwargs : dict pyval)
    (st st' : State World) (r : result (dict (dict pyval))) :
  run_command X self command_name pipeline_name deployment_name extra_args
    kwargs st = (r, st') ->
  exists good tail,
    invocations st' = invocations st ++ good ++ tail
    /\ forallb Dispatch.returned good = true
    /\ (tail = [] \/
        exists e ev, tail = [ev] /\ Dispatch.raised e ev /\ r = inl e).
Proof.
  rewrite run_command_unfold. unfold bind at 1.
  destruct (run_command_loaded X self pipeline_name deployment_name extra_args
              kwargs st) as [[e|[[merged dws] insts]] st1] eqn:Hloaded;
    apply run_command_loaded_keeps_invocations in Hloaded.
  - intros [= <- <-]. exists [], []. rewrite app_nil_r. auto.
  - unfold bind at 1.
    pose proof (check_command_exists_keeps_state X command_name insts st1) as Hs.
    destruct (check_command_exists X command_name insts st1) as [[e|[]] st2];
      cbn [snd] in Hs; subst st2.
    + intros [= <- <-]. exists [], []. rewrite app_nil_r. auto.
    + intros Hrun. apply invoke_deployments_trace in Hrun
        as (good & tail & Hinv & Hgood & Htail).
      exists good, tail. rewrite Hinv, Hloaded. auto.
Qed.

Lemma load_pipelines_fails (name : string) (pw : PW) (items : dict PW) :
  In (name, pw) items ->
  (forall w, exists e w', load_pipeline X pw w = (inl e, w')) ->
  forall acc st, exists e st', load_pipelines X items acc st = (inl e, st').
Proof.
  intros Hin Hfail.
  induction items as [|[n wr] rest IH]; [destruct Hin|]; intros acc st.
  cbn [load_pipelines]. unfold bind, effect.
  destruct Hin as [[= -> ->]|Hin].
  - destruct (Hfail (world st)) as (e & w' & ->). eauto.
  - destruct (load_pipeline X wr (world st)) as [[e|inst] w]; eauto.
Qed.

(** X5.  Without a pipeline filter, one registered pipeline whose plugin
    cannot be loaded makes the whole [run_command] fail, and no operation is
    invoked on any pipeline. *)
Theorem run_command_load_failure
    (self : ProjectWrapper PW DW) (command_name name : string) (pw : PW)
    (deployment_name : option string) (extra_args : option (list string))
    (kwargs : dict pyval) (st : State World) :
  In (name, pw) (pipeline_wrappers self) ->
  (forall w, exists e w', load_pipeline X pw w = (inl e, w')) ->
  exists e st',
    run_command X self command_name None deployment_name extra_args kwargs st
      = (inl e, st')
    /\ invocations st' = invocations st.
Proof.
  intros Hin Hfail. rewrite run_command_unfold.
  destruct (run_command_loaded X self None deployment_name extra_args kwargs st)
    as [[e|loaded] st1] eqn:Hloaded.
  - exists e, st1. rewrite (bind_raise _ _ _ _ _ Hloaded). split; [reflexivity|].
    eapply run_command_loaded_keeps_invocations, Hloaded.
  - exfalso. unfold run_command_loaded in Hloaded.
    apply bind_inr in Hloaded as (m & st0 & _ & Hloaded).
    unfold bind at 1 in Hloaded. unfold ret at 1 in Hloaded.
    apply bind_inr in Hloaded as (dwo & st0' & _ & Hloaded).
    apply bind_inr in Hloaded as (insts & st2 & Hload & _).
    destruct (load_pipelines_fails name pw _ Hin Hfail [] st0') as (e & s & He).
    congruence.
Qed.

(** *** [compose]: what is missing *)

(** X6.  [compose] for a pipeline that is not registered raises
    [NoSuchPipelineError] carrying the name; nothing is loaded and the
    plugin's [run_compose] is not called. *)
Theorem compose_unknown_pipeline
    (self : ProjectWrapper PW DW) (pipeline_name : string)
    (deployment_names : list string) (extra_args : option (list string))
    (kwargs : dict pyval) (st : State World) :
  dict_get pipeline_name (pipeline_wrappers self) = None ->
  compose X self pipeline_name deployment_names extra_args kwargs st
  = (inl (Raise NoSuchPipelineError pipeline_name),
     Build_State (world st) (invocations st)
       (log st ++ snd (MergedArgs.get_merged_keyword_args kwargs extra_args))).
Proof.
  intros Hnone. unfold compose.
  destruct (merged_keyword_args_run kwargs extra_args st) as (m & _ & Hm).
  rewrite (bind_step _ _ _ _ _ Hm), Hnone. reflexivity.
Qed.

Lemma get_deployment_wrappers_missing (self : ProjectWrapper PW DW)
    (found : list string) (missing : string) (rest : list string) :
  (forall n, In n found -> dict_get n (deployment_wrappers self) <> None) ->
  dict_get missing (deployment_wrappers self) = None ->
  forall acc (st : State World),
    get_deployment_wrappers self (found ++ missing :: rest) acc st
    = (inl (Raise NoSuchDeploymentError missing), st).
Proof.
  intros Hfound Hmissing.
  induction found as [|n found IH]; intros acc st; cbn [app get_deployment_wrappers].
  - now rewrite Hmissing.
  - destruct (dict_get n (deployment_wrappers self)) as [dw|] eqn:Hn.
    + apply IH. intros n' Hin. apply Hfound. now right.
    + now elim (Hfound n (or_introl eq_refl)).
Qed.

(** X7.  [compose] over deployment names of which one is not registered
    raises [NoSuchDeploymentError] carrying the first such name in the order
    given.  The pipeline's plugin has been loaded by then, but no
    configuration is read and [run_compose] is not called. *)
Theorem compose_missing_deployment
    (self : ProjectWrapper PW DW) (pipeline_name : string)
    (found : list string) (missing : string) (rest : list string)
    (extra_args : option (list string)) (kwargs : dict pyval)
    (st : State World) (pipeline_wrapper : PW) (pipeline : Pipeline)
    (w1 : World) :
  dict_get pipeline_name (pipeline_wrappers self) = Some pipeline_wrapper ->
  load_pipeline X pipeline_wrapper (world st) = (inr pipeline, w1) ->
  (forall n, In n found -> dict_get n (deployment_wrappers self) <> None) ->
  dict_get missing (deployment_wrappers self) = None ->
  compose X self pipeline_name (found ++ missing :: rest) extra_args kwargs st
  = (inl (Raise NoSuchDeploymentError missing),
     Build_State w1 (invocations st)
       (log st ++ snd (MergedArgs.get_merged_keyword_args kwargs extra_args))).
Proof.
  intros Hpw Hload Hfound Hmissing. unfold compose.
  destruct (merged_keyword_args_run kwargs extra_args st) as (m & _ & Hm).
  rewrite (bind_step _ _ _ _ _ Hm), Hpw.
  unfold bind at 1. unfold effect at 1. cbn [world]. rewrite Hload.
  cbn [invocations log].
  now rewrite (bind_raise _ _ _ _ _
                 (get_deployment_wrappers_missing self found missing rest
                    Hfound Hmissing [] _)).
Qed.

(** *** [update_pipelines]: what is not caught *)

Lemma update_loop_interrupted (pre : dict PW) (name : string) (pw : PW)
    (post : dict PW) (e : exn) :
  (forall n wr w e' w', In (n, wr) pre -> update X wr w = (inl e', w') ->
                        is_Exception e' = true) ->
  (forall w, exists w', update X pw w = (inl e, w')) ->
  is_Exception e = false ->
  forall st,
    exists st',
      update_loop X (pre ++ (name, pw) :: post) st = (inl e, st')
      /\ invocations st'
         = invocations st ++ map EvUpdate (dict_keys pre ++ [name]).
Proof.
  intros Hpre Hint Hbase.
  induction pre as [|[n wr] pre IH]; intros st.
  - cbn [app update_loop].
    unfold bind, try_except, emit, record, effect, modify.
    cbn [world invocations log].
    destruct (Hint (world st)) as (w' & ->). rewrite Hbase.
    eexists. split; reflexivity.
  - cbn [app]. rewrite update_loop_step
      by (intros e' w'; apply (Hpre n wr); now left).
    match goal with |- context [update_loop X _ ?s] => set (st1 := s) end.
    destruct (IH (fun n' wr' w e' w' Hin => Hpre n' wr' w e' w' (or_intror Hin))
                st1) as (st' & Hrun & Hinv).
    exists st'. split; [exact Hrun|].
    rewrite Hinv. subst st1. cbn [invocations dict_keys map fst app].
    now rewrite <- app_assoc.
Qed.

(** X8.  [except Exception] does not catch an exception that is not an
    [Exception] ([KeyboardInterrupt], [SystemExit]): when a pipeline's
    update raises one, [update_pipelines] raises it too, and the pipelines
    registered after that one are not attempted. *)
Theorem update_pipelines_interrupted
    (self : ProjectWrapper PW DW) (pre : dict PW) (name : string) (pw : PW)
    (post : dict PW) (e : exn) (st : State World) :
  pipeline_wrappers self = pre ++ (name, pw) :: post ->
  (forall n wr w e' w', In (n, wr) pre -> update X wr w = (inl e', w') ->
                        is_Exception e' = true) ->
  (forall w, exists w', update X pw w = (inl e, w')) ->
  is_Exception e = false ->
  exists st',
    update_pipelines X self st = (inl e, st')
    /\ update_attempts
         (skipn (length (invocations st)) (invocations st'))
       = dict_keys pre ++ [name].
Proof.
  intros Hitems Hpre Hint Hbase. unfold update_pipelines. rewrite Hitems.
  destruct (update_loop_interrupted pre name pw post e Hpre Hint Hbase st)
    as (st' & Hrun & Hinv).
  exists st'. split; [exact Hrun|].
  rewrite Hinv, skipn_app, Nat.sub_diag, skipn_all. cbn [app skipn].
  apply update_attempts_map.
Qed.

End RunCommandFailures.

Lemma run_command_fail_fast_witness :
  let run :=
    Project.run_command DemoFaults.externals DemoProject.project "run_process"
      None None None [] DemoProject.start in
  fst run = inl (Raise OtherException "disk full")
  /\ exists good tail,
       Project.invocations (snd run)
         = Project.invocations DemoProject.start ++ good ++ tail
       /\ forallb Dispatch.returned good = true
       /\ (tail = [] \/
           exists e ev,
             tail = [ev] /\ Dispatch.raised e ev /\ fst run = inl e).
Proof.
  split; [reflexivity|].
  exact (run_command_fail_fast DemoFaults.externals DemoProject.project
           "run_process" None None None [] DemoProject.start _ _ eq_refl).
Defined.

Lemma run_command_load_failure_witness :
  exists e st',
    Project.run_command DemoFaults.externals DemoFaults.project "run_process"
      None None None [] DemoProject.start = (inl e, st')
    /\ Project.invocations st' = Project.invocations DemoProject.start.
Proof.
  apply (run_command_load_failure DemoFaults.externals DemoFaults.project
           "run_process" "camC"
           {| DemoProject.operations := []; DemoProject.pull_fails := false |}).
  - right. right. now left.
  - intros w. eexists. eexists. reflexivity.
Defined.

Lemma compose_unknown_pipeline_witness :
  Project.compose DemoProject.externals DemoProject.project "camZ"
    ["dep1"] None [] DemoProject.start
  = (inl (Raise NoSuchPipelineError "camZ"), Project.Build_State 0 [] []).
Proof.
  exact (compose_unknown_pipeline DemoProject.externals DemoProject.project
           "camZ" ["dep1"] None [] DemoProject.start eq_refl).
Defined.

Lemma compose_missing_deployment_witness :
  Project.compose DemoFaults.externals DemoProject.project "camA"
    (["dep2"] ++ "depX" :: ["depY"; "dep1"]) None [] DemoProject.start
  = (inl (Raise NoSuchDeploymentError "depX"), Project.Build_State 1 [] []).
Proof.
  apply (compose_missing_deployment DemoFaults.externals DemoProject.project
           "camA" ["dep2"] "depX" ["depY"; "dep1"] None [] DemoProject.start
           {| DemoProject.operations := ["run_process"; "run_compose"];
              DemoProject.pull_fails := true |}
           ["run_process"; "run_compose"] 1).
  - reflexivity.
  - reflexivity.
  - intros n [<-|[]]. discriminate.
  - reflexivity.
Defined.

Lemma update_pipelines_interrupted_witness :
  exists st',
    Project.update_pipelines DemoFaults.externals DemoFaults.project
      DemoProject.start = (inl (Raise KeyboardInterrupt ""), st')
    /\ Project.update_attempts
         (skipn (length (Project.invocations DemoProject.start))
            (Project.invocations st'))
       = ["camA"; "camB"].
Proof.
  apply (update_pipelines_interrupted DemoFaults.externals DemoFaults.project
           [("camA", {| DemoProject.operations := ["run_process"];
                        DemoProject.pull_fails := false |})]
           "camB"
           {| DemoProject.operations := ["run_process"];
              DemoProject.pull_fails := true |}
           [("camC", {| DemoProject.operations := [];
                        DemoProject.pull_fails := false |})]).
  - reflexivity.
  - intros n wr w e' w' [[= <- <-]|[]]. discriminate.
  - intros w. eexists. reflexivity.
  - reflexivity.
Defined.

(* ===================================================================== *)
(** ** [get_merged_keyword_args]: what the merge keeps *)
(* ===================================================================== *)

Section MergedArgsFrame.
Import MergedArgs.

Lemma dict_keys_merge_In {V : Type} (k : string) (d2 : dict V) :
  forall d,
    In k (dict_keys (dict_merge d d2)) <->
    In k (dict_keys d) \/ In k (dict_keys d2).
Proof.
  induction d2 as [|[k' v'] d2 IH]; intros d.
  - cbn. tauto.
  - rewrite dict_merge_cons, IH, dict_keys_set. cbn [dict_keys map fst In].
    destruct (in_dec string_dec k' (dict_keys d)) as [Hin|Hout].
    + split; [tauto|]. intros [H|[<-|H]]; auto.
    + rewrite in_app_iff. cbn [In]. tauto.
Qed.

Lemma dict_keys_merge_prefix {V : Type} (d2 : dict V) :
  forall d, exists fresh,
    dict_keys (dict_merge d d2) = dict_keys d ++ fresh.
Proof.
  induction d2 as [|[k v] d2 IH]; intros d.
  - exists []. now rewrite app_nil_r.
  - rewrite dict_merge_cons. destruct (IH (dict_set k v d)) as (fresh & ->).
    rewrite dict_keys_set.
    destruct (in_dec string_dec k (dict_keys d)).
    + now exists fresh.
    + exists ([k] ++ fresh). now rewrite app_assoc.
Qed.

Lemma spec_extra_pairs_has_key (l : list string) (arg key value : string) :
  In arg l -> str_split "=" arg = [key; value] ->
  In key (dict_keys (spec_extra_pairs l)).
Proof.
  intros Hin Hsplit.
  destruct (split_exactly_one_eq _ _ _ Hsplit) as [Hone Hpart].
  unfold dict_keys, spec_extra_pairs. rewrite map_map. apply in_map_iff.
  exists arg. split; [now rewrite Hpart | now apply filter_In].
Qed.

(** X9.  A key that no well formed extra argument carries is bound in the
    merged keyword arguments exactly as it is in [kwargs], and is absent
    from them when [kwargs] does not bind it. *)
Theorem merged_keeps_untouched_keys
    (kwargs : dict pyval) (extra_args : option (list string)) (key : string) :
  (forall l arg value,
     extra_args = Some l -> In arg l -> str_split "=" arg <> [key; value]) ->
  exists merged,
    fst (get_merged_keyword_args kwargs extra_args) = inr merged
    /\ dict_get key merged = dict_get key kwargs.
Proof.
  intros Huntouched. rewrite get_merged_keyword_args_eq.
  cbn [spec_merged_keyword_args fst]. eexists. split; [reflexivity|].
  apply dict_get_merge_absent. rewrite dict_keys_merge_In. intros [[]|Hin].
  apply spec_extra_pairs_key in Hin as (arg & value & Hin & Hsplit).
  destruct extra_args as [l|]; [|destruct Hin].
  exact (Huntouched l arg value eq_refl Hin Hsplit).
Qed.

(** X10.  The keys of the merged keyword arguments are the keys of [kwargs],
    in their order, followed by keys that only extra arguments carry; a key
    is among them exactly when [kwargs] binds it or a well formed extra
    argument carries it; and no key is repeated when none is in [kwargs]. *)
Theorem merged_keys
    (kwargs : dict pyval) (extra_args : option (list string)) :
  exists merged fresh,
    fst (get_merged_keyword_args kwargs extra_args) = inr merged
    /\ dict_keys merged = dict_keys kwargs ++ fresh
    /\ (forall key,
          In key (dict_keys merged) <->
          In key (dict_keys kwargs)
          \/ exists l arg value,
               extra_args = Some l /\ In arg l
               /\ str_split "=" arg = [key; value])
    /\ (NoDup (dict_keys kwargs) -> NoDup (dict_keys merged)).
Proof.
  rewrite get_merged_keyword_args_eq. cbn [spec_merged_keyword_args fst].
  set (l := match extra_args with Some l => l | None => [] end).
  destruct (dict_keys_merge_prefix (dict_merge [] (spec_extra_pairs l)) kwargs)
    as (fresh & Hfresh).
  eexists. exists fresh. split; [reflexivity|]. split; [exact Hfresh|]. split.
  - intros key. rewrite !dict_keys_merge_In. cbn [dict_keys map In]. split.
    + intros [H|[[]|H]]; [now left|]. right.
      apply spec_extra_pairs_key in H as (arg & value & Hin & Hsplit).
      subst l. destruct extra_args as [l|]; [|destruct Hin].
      now exists l, arg, value.
    + intros [H|(l0 & arg & value & -> & Hin & Hsplit)]; [now left|].
      right. right. eapply spec_extra_pairs_has_key; eauto.
  - apply dict_merge_NoDup.
Qed.

End MergedArgsFrame.

Lemma merged_keeps_untouched_keys_witness :
  exists merged,
    fst (MergedArgs.get_merged_keyword_args
           [("dry_run", PyBool true); ("days", PyInt 1)]
           (Some ["days=3"; "dry_run"; "a=b=dry_run"])) = inr merged
    /\ dict_get "dry_run" merged
       = dict_get "dry_run" [("dry_run", PyBool true); ("days", PyInt 1)].
Proof.
  apply (merged_keeps_untouched_keys
           [("dry_run", PyBool true); ("days", PyInt 1)]
           (Some ["days=3"; "dry_run"; "a=b=dry_run"]) "dry_run").
  intros l arg value [= <-] [<-|[<-|[<-|[]]]]; vm_compute; discriminate.
Defined.

(* ===================================================================== *)
(** ** The loader: what a load yields, and what it leaves behind *)
(* ===================================================================== *)

Section LoaderShape.
Import Loader.
Context {FS : Type} (E : Env FS).


(** X11.  The scan of the module's names takes the first value that is a
    class deriving from [BasePipeline] other than [BasePipeline] itself:
    it yields a class exactly when the names before it hold nothing that
    qualifies. *)
Theorem find_pipeline_class_first (items : dict PyObj) (c : PyClass) :
  find_pipeline_class items = Some c <->
  exists before name after,
    items = before ++ (name, ObjClass c) :: after
    /\ is_pipeline_class (ObjClass c) = true
    /\ forallb (fun item => negb (is_pipeline_class (snd item))) before = true.
Proof.
  split.
  - induction items as [|[name obj] rest IH]; [discriminate|].
    cbn [find_pipeline_class].
    destruct (is_pipeline_class obj) eqn:Hq.
    + destruct obj as [c0|v]; [|discriminate].
      intros [= ->]. exists [], name, rest. now repeat split.
    + intros H. destruct (IH H) as (before & n & after & -> & Hc & Hb).
      exists ((name, obj) :: before), n, after. repeat split; auto.
      cbn [forallb snd]. now rewrite Hq, Hb.
  - intros (before & name & after & -> & Hc & Hb).
    induction before as [|[n obj] before IH]; cbn [app find_pipeline_class].
    + now rewrite Hc.
    + cbn [forallb snd] in Hb. apply andb_prop in Hb as [Hq Hb].
      apply negb_true_iff in Hq. rewrite Hq. exact (IH Hb).
Qed.



(** X13.  On a wrapper that has no class cached, [get_instance] and
    [load_pipeline_instance] on the wrapper's repository, configuration
    path and dry-run flag end alike: the same instance or the same
    exception, and the same state. *)
Theorem get_instance_agrees_with_loader
    (self : PipelineWrapper) (file_handler : option Instance.Handler)
    (st : State FS) :
  pipeline_class self = None ->
  Instance.plain (fst (fst (Instance.get_instance E self file_handler st)))
    = fst (load_pipeline_instance E (repo_dir self) (config_path self)
             (dry_run self) st)
  /\ snd (Instance.get_instance E self file_handler st)
     = snd (load_pipeline_instance E (repo_dir self) (config_path self)
              (dry_run self) st).
Proof.
  intros Hnone.
  unfold Instance.get_instance, load_pipeline_instance, get_pipeline_class.
  rewrite Hnone. unfold bind, ret, raise.
  destruct (import_pipeline_module E (repo_dir self) st)
    as [[e|module_dict] st1]; [now split|].
  destruct (find_pipeline_class module_dict) as [c|];
    [|rewrite Hnone; now split].
  cbn [pipeline_class set_pipeline_class].
  unfold load_config, load_config_at, instantiate, raise, ret.
  cbn [config_path repo_dir root_dir dry_run set_pipeline_class].
  destruct (util_load_config E _ (fs st1)); [now split|].
  destruct (instantiable c); now split.
Qed.


(** Whatever a load comes to, it starts with a scan of the repository. *)
Lemma import_pipeline_module_scans_any (E0 : Env FS) (dir : Path)
    (st : State FS) :
  exists rest,
    events (snd (import_pipeline_module E0 dir st))
    = events st ++ EvScan dir :: rest.
Proof.
  unfold import_pipeline_module.
  rewrite (bind_step _ _ _ _ _ (scan_run E0 dir st)). cbn [fs].
  destruct (glob_pipeline_py E0 dir (fs st)) as [|p [|p' more]];
    try (exists []; reflexivity).
  unfold bind, gets, sys_path_insert0, modify, raise.
  cbn [fs sys_path events].
  destruct (spec_from_file_location E0 _ _ (fs st)) as [spec|];
    [|exists []; reflexivity].
  destruct (spec_has_loader spec); cbn [negb]; [|exists []; reflexivity].
  unfold run_exec_module, bind, record, modify. cbn [fs sys_path events].
  destruct (exec_module E0 spec (fs st) _) as [[e|md] [fs' path']].
  - eexists. cbn [snd events]. rewrite <- app_assoc. reflexivity.
  - unfold sys_path_pop0, ret. cbn [sys_path fs events].
    destruct path' as [|q path']; eexists; cbn [snd events];
      rewrite <- app_assoc; reflexivity.
Qed.

(** X15.  A module without a qualifying class leaves nothing cached:
    [get_pipeline_class] returns [None] with the wrapper as it was, and the
    next call scans the repository again. *)
Theorem get_pipeline_class_none_not_cached
    (self self' : PipelineWrapper) (st st' : State FS) :
  get_pipeline_class E self st = (inr (self', None), st') ->
  self' = self
  /\ pipeline_class self = None
  /\ forall (E' : Env FS) (st2 : State FS),
       exists rest,
         events (snd (get_pipeline_class E' self' st2))
         = events st2 ++ EvScan (repo_dir self) :: rest.
Proof.
  unfold get_pipeline_class at 1.
  destruct (pipeline_class self) as [c|] eqn:Hc.
  { unfold ret. discriminate. }
  intros H. apply bind_inr in H as (module_dict & st1 & _ & H).
  unfold ret in H.
  destruct (find_pipeline_class module_dict) as [c|]; [discriminate|].
  injection H as <- _ _. split; [reflexivity|]. split; [reflexivity|].
  intros E' st2. unfold get_pipeline_class. rewrite Hc.
  destruct (import_pipeline_module_scans_any E' (repo_dir self) st2)
    as (rest & Hscan).
  exists rest. rewrite <- Hscan. unfold bind, ret.
  now destruct (import_pipeline_module E' (repo_dir self) st2) as [[e|md] s].
Qed.

(** X16.  When no module spec can be built for the one plugin-definition
    file, the load raises [ImportError] naming the module and the file; this
    happens before [sys.path] is touched and before anything is executed. *)
Theorem load_without_module_spec
    (dir p config_path : Path) (dry : bool) (self : PipelineWrapper)
    (st : State FS) :
  glob_pipeline_py E dir (fs st) = [p] ->
  spec_from_file_location E (path_stem p) (absolute E p) (fs st) = None ->
  pipeline_class self = None ->
  repo_dir self = dir ->
  let error :=
    Raise ImportError
      ("Could not load spec for " ++ path_stem p ++ " from " ++ p)%string in
  let after :=
    Build_State (fs st) (sys_path st) (events st ++ [EvScan dir]) in
  load_pipeline_instance E dir config_path dry st = (inl error, after)
  /\ get_pipeline_class E self st = (inl error, after).
Proof.
  intros Hglob Hspec Hnone Hdir.
  assert (Himport :
    import_pipeline_module E dir st =
    (inl (Raise ImportError
            ("Could not load spec for " ++ path_stem p ++ " from " ++ p)%string),
     Build_State (fs st) (sys_path st) (events st ++ [EvScan dir]))).
  { unfold import_pipeline_module.
    rewrite (bind_step _ _ _ _ _ (scan_run E dir st)). cbn [fs].
    rewrite Hglob. unfold bind, gets. cbn [fs]. now rewrite Hspec. }
  cbv zeta. unfold load_pipeline_instance, get_pipeline_class.
  rewrite Hnone, Hdir.
  rewrite !(bind_raise _ _ _ _ _ Himport). now split.
Qed.


End LoaderShape.


Lemma get_instance_agrees_with_loader_witness :
  Instance.plain
    (fst (fst (Instance.get_instance (Demo.env false) Demo.wrapper
                 (Some "pipelines/cam/cam.log")
                 (Demo.state ["pipelines/cam/repo/cam.pipeline.py"]))))
    = fst (Loader.load_pipeline_instance (Demo.env false)
             (Loader.repo_dir Demo.wrapper) (Loader.config_path Demo.wrapper)
             (Loader.dry_run Demo.wrapper)
             (Demo.state ["pipelines/cam/repo/cam.pipeline.py"]))
  /\ snd (Instance.get_instance (Demo.env false) Demo.wrapper
            (Some "pipelines/cam/cam.log")
            (Demo.state ["pipelines/cam/repo/cam.pipeline.py"]))
     = snd (Loader.load_pipeline_instance (Demo.env false)
              (Loader.repo_dir Demo.wrapper) (Loader.config_path Demo.wrapper)
              (Loader.dry_run Demo.wrapper)
              (Demo.state ["pipelines/cam/repo/cam.pipeline.py"])).
Proof.
  exact (get_instance_agrees_with_loader (Demo.env false) Demo.wrapper
           (Some "pipelines/cam/cam.log")
           (Demo.state ["pipelines/cam/repo/cam.pipeline.py"]) eq_refl).
Defined.


Lemma get_pipeline_class_none_not_cached_witness :
  Demo.wrapper = Demo.wrapper
  /\ Loader.pipeline_class Demo.wrapper = None
  /\ forall (E' : Loader.Env Demo.Disk) (st2 : Loader.State Demo.Disk),
       exists rest,
         Loader.events (snd (Loader.get_pipeline_class E' Demo.wrapper st2))
         = Loader.events st2
           ++ Loader.EvScan (Loader.repo_dir Demo.wrapper) :: rest.
Proof.
  exact (get_pipeline_class_none_not_cached DemoLoader.env_without_class
           Demo.wrapper Demo.wrapper
           (Demo.state ["pipelines/cam/repo/cam.pipeline.py"]) _ eq_refl).
Defined.

Lemma load_without_module_spec_witness :
  let error :=
    Raise ImportError
      "Could not load spec for cam.pipeline from pipelines/cam/repo/cam.pipeline.py" in
  let after :=
    Loader.Build_State (Demo.disk ["pipelines/cam/repo/cam.pipeline.py"])
      ["/usr/lib/python3"] [Loader.EvScan "pipelines/cam/repo"] in
  Loader.load_pipeline_instance DemoLoader.env_without_spec
    "pipelines/cam/repo" "pipelines/cam/pipeline.yml" false
    (Demo.state ["pipelines/cam/repo/cam.pipeline.py"]) = (inl error, after)
  /\ Loader.get_pipeline_class DemoLoader.env_without_spec Demo.wrapper
       (Demo.state ["pipelines/cam/repo/cam.pipeline.py"]) = (inl error, after).
Proof.
  exact (load_without_module_spec DemoLoader.env_without_spec
           "pipelines/cam/repo" "pipelines/cam/repo/cam.pipeline.py"
           "pipelines/cam/pipeline.yml" false Demo.wrapper
           (Demo.state ["pipelines/cam/repo/cam.pipeline.py"])
           eq_refl eq_refl eq_refl eq_refl).
Defined.


(* ===================================================================== *)
(** ** [install]: how it ends *)
(* ===================================================================== *)

Section InstallFacts.
Import Install.
Import Logging.
Context {FS : Type} (E : Env FS).

(** Decoding and logging a stream runs no command and leaves the disk
    alone. *)
Lemma log_decoded_frame (lv : log_level) (data : bytes) (st st' : State FS)
    (r : result unit) :
  log_decoded E lv data st = (r, st') ->
  commands st' = commands st /\ fs st' = fs st.
Proof.
  unfold log_decoded.
  destruct (String.eqb data EmptyString); [now intros [= <- <-]|].
  destruct (decode E data); now intros [= <- <-].
Qed.

(** It returns exactly on the streams that are [loggable]. *)
Lemma log_decoded_returns (lv : log_level) (data : bytes) (st : State FS) :
  (exists st', log_decoded E lv data st = (inr tt, st'))
  <-> loggable E data = true.
Proof.
  unfold log_decoded, loggable.
  destruct (String.eqb data EmptyString).
  - split; [reflexivity | intros _; now exists st].
  - destruct (decode E data) as [e|text].
    + split; [intros (st' & H); discriminate H | discriminate].
    + split; [reflexivity | intros _; eexists; reflexivity].
Qed.

(** Case analysis on every test [install] makes. *)
Ltac install_cases self st :=
  unfold install, install_attempt;
  destruct (is_file E (requirements_path self) (fs st)) eqn:Hreq;
    [cbn [fs log commands logged];
     destruct (is_file E (absolute E (requirements_path self)) (fs st))
       eqn:Habs; cbn [negb];
       [destruct (which E "pip" (fs st)) as [pip|] eqn:Hpip;
          [cbn [fs log commands];
           destruct (communicate E _ (fs st)) as [[e|[[out err] rc]] fs']
             eqn:Hrun;
             [cbn [failure_is_Exception]; destruct (is_Exception e) eqn:Hexc
             |destruct (log_decoded E DEBUG out _) as [[e1|[]] st3] eqn:Hout;
                [cbn [failure_is_Exception];
                 destruct (is_Exception e1) eqn:Hexc
                |destruct (log_decoded E (Level WARNING) err st3)
                   as [[e2|[]] st4] eqn:Herr;
                   [cbn [failure_is_Exception];
                    destruct (is_Exception e2) eqn:Hexc
                   |destruct (Z.eqb rc 0) eqn:Hrc; cbn [negb]]]]
          |]
       |]
    |];
  cbn [failure_is_Exception failure_str].

(** X18.  Whatever goes wrong, [install] raises [InstallError], and has
    logged an error by then; the one exception is an exception that is not
    an [Exception] coming out of the pip process, which passes through. *)
Theorem install_raises_install_error
    (self : Loader.PipelineWrapper) (st st' : State FS) (f : failure) :
  install E self st = (inl f, st') ->
  (exists msg cause entries text,
     f = InstallError msg cause
     /\ log st' = entries ++ [{| entry_level := Level ERROR;
                                 entry_msg := text |}])
  \/ (exists e, f = Builtin e /\ is_Exception e = false).
Proof.
  install_cases self st; intros H; try discriminate H;
    injection H as <- <-;
    try (right; eexists; split; [reflexivity | assumption]);
    left; do 4 eexists; (split; [reflexivity|]); unfold logged; cbn [log];
    reflexivity.
Qed.

(** X19.  [install] returns exactly when the requirements file exists
    (under its relative and its absolute name), [pip] is found, the pip run
    comes back with return code 0, and what pip wrote to its standard
    output and to its standard error is empty or decodes as UTF-8: output
    that does not decode makes [install] raise even though pip succeeded. *)
Theorem install_succeeds_iff
    (self : Loader.PipelineWrapper) (st : State FS) :
  (exists st', install E self st = (inr tt, st')) <->
  is_file E (requirements_path self) (fs st) = true
  /\ is_file E (absolute E (requirements_path self)) (fs st) = true
  /\ exists pip out err fs',
       which E "pip" (fs st) = Some pip
       /\ communicate E (pip_command E self pip) (fs st)
          = (inr (out, err, 0%Z), fs')
       /\ loggable E out = true
       /\ loggable E err = true.
Proof.
  unfold pip_command. split.
  - intros (st' & H). revert H.
    install_cases self st; intros H; try discriminate.
    apply Z.eqb_eq in Hrc. subst rc.
    repeat split; auto. exists pip, out, err, fs'. repeat split; auto.
    + eapply (proj1 (log_decoded_returns DEBUG out _)). eexists. exact Hout.
    + eapply (proj1 (log_decoded_returns (Level WARNING) err _)).
      eexists. exact Herr.
  - intros (Hreq & Habs & pip & out & err & fs' & Hpip & Hrun & Hout & Herr).
    unfold install, install_attempt. rewrite Hreq.
    cbn [fs log commands logged]. rewrite Habs, Hpip. cbn [negb fs].
    rewrite Hrun.
    match goal with
    | |- context [log_decoded E DEBUG out ?s] =>
        destruct (proj2 (log_decoded_returns DEBUG out s) Hout) as (st3 & ->)
    end.
    destruct (proj2 (log_decoded_returns (Level WARNING) err st3) Herr)
      as (st4 & ->).
    cbn [Z.eqb negb]. eexists. reflexivity.
Qed.

(** X20.  [install] runs at most one command, the pip command on the
    absolute requirements path, and runs none unless the requirements file
    exists and [pip] is found. *)
Theorem install_runs_pip_at_most_once
    (self : Loader.PipelineWrapper) (st st' : State FS)
    (r : failure + unit) :
  install E self st = (r, st') ->
  commands st' = commands st
  \/ exists pip,
       is_file E (requirements_path self) (fs st) = true
       /\ which E "pip" (fs st) = Some pip
       /\ commands st' = commands st ++ [pip_command E self pip].
Proof.
  unfold pip_command.
  install_cases self st; intros H; injection H as <- <-;
    repeat match goal with
           | H : log_decoded E _ _ _ = _ |- _ =>
               apply log_decoded_frame in H; destruct H as [H _]
           end;
    unfold logged; cbn [commands] in *;
    try (left; reflexivity);
    right; exists pip; repeat split; auto;
    repeat match goal with
           | H : commands _ = _ |- _ => rewrite H; clear H
           end;
    reflexivity.
Qed.

(** X21.  When the requirements file exists and the installation still
    fails, the [InstallError] that [install] raises has an empty message:
    the reason is in the exception it was raised from and in the error
    record of the log. *)
Theorem install_error_message_is_empty
    (self : Loader.PipelineWrapper) (st st' : State FS)
    (msg : string) (cause : option failure) :
  is_file E (requirements_path self) (fs st) = true ->
  install E self st = (inl (InstallError msg cause), st') ->
  msg = EmptyString
  /\ exists reason entries,
       cause = Some reason
       /\ log st' =
          entries ++
          [{| entry_level := Level ERROR;
              entry_msg := "Error installing pipeline dependencies: "
                           ++ failure_str reason |}].
Proof.
  intros Hfile.
  install_cases self st; try congruence; intros H; try discriminate H;
    injection H as <- <- <-;
    (split; [reflexivity|]); do 2 eexists;
    (split; [reflexivity|]); unfold logged; cbn [log failure_str];
    reflexivity.
Qed.

End InstallFacts.

Lemma install_raises_install_error_witness :
  (exists msg cause entries text,
     Install.InstallError "Requirements file does not exist: pipelines/cam/repo/requirements.txt" None
       = Install.InstallError msg cause
     /\ Install.log (snd (Install.install DemoInstall.env Demo.wrapper
                            (DemoInstall.state [])))
        = entries ++ [{| Logging.entry_level := Logging.Level ERROR;
                         Logging.entry_msg := text |}])
  \/ (exists e,
        Install.InstallError "Requirements file does not exist: pipelines/cam/repo/requirements.txt" None
          = Install.Builtin e
        /\ is_Exception e = false).
Proof.
  exact (install_raises_install_error DemoInstall.env Demo.wrapper
           (DemoInstall.state []) _ _ eq_refl).
Defined.

Lemma install_error_message_is_empty_witness :
  let st :=
    DemoInstall.state ["pipelines/cam/repo/requirements.txt"; "nosuchpkg"] in
  EmptyString = EmptyString
  /\ exists reason entries,
       Some (Install.InstallError
               "pip install had a non-zero return code: 1" None)
         = Some reason
       /\ Install.log (snd (Install.install DemoInstall.env Demo.wrapper st)) =
          entries ++
          [{| Logging.entry_level := Logging.Level ERROR;
              Logging.entry_msg := "Error installing pipeline dependencies: "
                                   ++ Install.failure_str reason |}].
Proof.
  exact (install_error_message_is_empty DemoInstall.env Demo.wrapper
           (DemoInstall.state
              ["pipelines/cam/repo/requirements.txt"; "nosuchpkg"])
           _ EmptyString _ eq_refl eq_refl).
Defined.

Lemma install_runs_pip_at_most_once_witness :
  let st := DemoInstall.state ["pipelines/cam/repo/requirements.txt"] in
  Install.commands (snd (Install.install DemoInstall.env Demo.wrapper st))
    = Install.commands st
  \/ exists pip,
       Install.is_file DemoInstall.env (Install.requirements_path Demo.wrapper)
         (Install.fs st) = true
       /\ Install.which DemoInstall.env "pip" (Install.fs st) = Some pip
       /\ Install.commands
            (snd (Install.install DemoInstall.env Demo.wrapper st))
          = Install.commands st
            ++ [Install.pip_command DemoInstall.env Demo.wrapper pip].
Proof.
  exact (install_runs_pip_at_most_once DemoInstall.env Demo.wrapper
           (DemoInstall.state ["pipelines/cam/repo/requirements.txt"])
           _ _ eq_refl).
Defined.

(** The installation of the demonstration pipeline, with pip present. *)
Example install_demo :
  Install.install DemoInstall.env Demo.wrapper
    (DemoInstall.state ["pipelines/cam/repo/requirements.txt"])
  = (inr tt,
     {| Install.fs := ["pipelines/cam/repo/requirements.txt"];
        Install.log :=
          [{| Logging.entry_level := Logging.Level INFO;
              Logging.entry_msg :=
                "Installing pipeline dependencies from pipelines/cam/repo/requirements.txt..." |};
           {| Logging.entry_level := Logging.DEBUG;
              Logging.entry_msg := "Successfully installed" |};
           {| Logging.entry_level := Logging.Level INFO;
              Logging.entry_msg :=
                "Pipeline dependencies installed successfully." |}];
        Install.commands :=
          [["/usr/bin/pip"; "install"; "--no-input"; "-r";
            "pipelines/cam/repo/requirements.txt"]] |}).
Proof. reflexivity. Qed.

(** pip succeeds but prints a byte that is not UTF-8: the installation is
    reported as failed, and the output is not in the log. *)
Example install_undecodable_output :
  Install.install DemoInstall.env Demo.wrapper
    (DemoInstall.state ["pipelines/cam/repo/requirements.txt"; "latin1pkg"])
  = (inl (Install.InstallError EmptyString
            (Some (Install.Builtin
                     (Raise ValueError
                        "'utf-8' codec can't decode byte 0xff: invalid start byte")))),
     {| Install.fs := ["pipelines/cam/repo/requirements.txt"; "latin1pkg"];
        Install.log :=
          [{| Logging.entry_level := Logging.Level INFO;
              Logging.entry_msg :=
                "Installing pipeline dependencies from pipelines/cam/repo/requirements.txt..." |};
           {| Logging.entry_level := Logging.Level ERROR;
              Logging.entry_msg :=
                "Error installing pipeline dependencies: 'utf-8' codec can't decode byte 0xff: invalid start byte" |}];
        Install.commands :=
          [["/usr/bin/pip"; "install"; "--no-input"; "-r";
            "pipelines/cam/repo/requirements.txt"]] |}).
Proof. reflexivity. Qed.

(* ===================================================================== *)
(** ** The registries: reloading and [create_deployment] *)
(* ===================================================================== *)

Section RegistryFacts.
Import Registry.
Context {FS PW DW : Type} (E : Env FS PW DW).

Lemma dict_keys_set_In {V : Type} (k n : string) (v : V) (d : dict V) :
  In k (dict_keys (dict_set n v d)) <-> In k (dict_keys d) \/ k = n.
Proof.
  rewrite dict_keys_set.
  destruct (in_dec string_dec n (dict_keys d)) as [Hin|Hout].
  - split; [tauto|]. intros [H| ->]; auto.
  - rewrite in_app_iff. cbn [In]. intuition congruence.
Qed.

Lemma load_pipeline_loop_spec (dir : Path) (names : list string) :
  forall st r st',
    load_pipeline_loop E dir names st = (r, st') ->
    deployments st' = deployments st
    /\ made st' = made st
    /\ log st' = log st
    /\ (NoDup (dict_keys (pipelines st)) -> NoDup (dict_keys (pipelines st')))
    /\ (forall k, In k (dict_keys (pipelines st')) ->
                  In k (dict_keys (pipelines st)) \/ In k names)
    /\ (forall f, r = inl f ->
          exists before name after e fs0,
            names = before ++ name :: after
            /\ f = Builtin e
            /\ is_dir E (path_join dir name) fs0 = true
            /\ pipeline_wrapper E (path_join dir name) fs0 = (inl e, fs st')
            /\ forall k, In k (dict_keys (pipelines st')) ->
                         In k (dict_keys (pipelines st)) \/ In k before).
Proof.
  induction names as [|name rest IH]; intros st r st'.
  - intros [= <- <-]. repeat split; auto. discriminate.
  - cbn [load_pipeline_loop].
    destruct (is_dir E (path_join dir name) (fs st)) eqn:Hdir.
    + destruct (pipeline_wrapper E (path_join dir name) (fs st))
        as [[e|wrapper] fs'] eqn:Hwrap.
      * intros [= <- <-]. cbn. repeat split; auto.
        intros f [= <-]. exists [], name, rest, e, (fs st).
        repeat split; auto.
      * intros Hrun. apply IH in Hrun
          as (Hd & Hm & Hl & Hnd & Hkeys & Hfail).
        cbn [deployments made log pipelines] in *.
        repeat split; auto.
        -- intros H. apply Hnd. now apply dict_set_NoDup.
        -- intros k Hk. destruct (Hkeys k Hk) as [H|H]; [|right; now right].
           apply dict_keys_set_In in H as [H| ->]; [now left|].
           right. now left.
        -- intros f Hf.
           destruct (Hfail f Hf)
             as (before & n & after & e & fs0 & -> & -> & Hd0 & Hw0 & Hk0).
           exists (name :: before), n, after, e, fs0. repeat split; auto.
           intros k Hk. destruct (Hk0 k Hk) as [H|H]; [|right; now right].
           apply dict_keys_set_In in H as [H| ->]; [now left|].
           right. now left.
    + intros Hrun. apply IH in Hrun as (Hd & Hm & Hl & Hnd & Hkeys & Hfail).
      repeat split; auto.
      * intros k Hk. destruct (Hkeys k Hk); [now left | right; now right].
      * intros f Hf.
        destruct (Hfail f Hf)
          as (before & n & after & e & fs0 & -> & -> & Hd0 & Hw0 & Hk0).
        exists (name :: before), n, after, e, fs0. repeat split; auto.
        intros k Hk. destruct (Hk0 k Hk); [now left | right; now right].
Qed.

(** X22.  However [_load_pipeline] ends, the pipeline registry it leaves
    holds only names that the pipelines directory lists, each once: what
    was registered before and is not listed is gone.  The deployment
    registry is not touched. *)
Theorem load_pipeline_registry_from_disk
    (root_dir : Path) (st st' : State FS PW DW) (r : failure + unit) :
  _load_pipeline E root_dir st = (r, st') ->
  (forall k, In k (dict_keys (pipelines st')) ->
             In k (iterdir E (pipeline_dir root_dir) (fs st)))
  /\ NoDup (dict_keys (pipelines st'))
  /\ deployments st' = deployments st.
Proof.
  unfold _load_pipeline. intros H.
  apply load_pipeline_loop_spec in H as (Hd & _ & _ & Hnd & Hkeys & _).
  cbn [pipelines deployments dict_keys map] in *. repeat split; auto.
  - intros k Hk. destruct (Hkeys k Hk) as [[]|H]. exact H.
  - apply Hnd. constructor.
Qed.

(** X23.  When wrapping one of the listed directories fails, that
    exception is what [_load_pipeline] raises, and the registry is left
    with nothing but (some of) the names listed before the failing one. *)
Theorem load_pipeline_failure_leaves_prefix
    (root_dir : Path) (st st' : State FS PW DW) (f : failure) :
  _load_pipeline E root_dir st = (inl f, st') ->
  exists before name after e fs0,
    iterdir E (pipeline_dir root_dir) (fs st) = before ++ name :: after
    /\ f = Builtin e
    /\ pipeline_wrapper E (path_join (pipeline_dir root_dir) name) fs0
       = (inl e, fs st')
    /\ forall k, In k (dict_keys (pipelines st')) -> In k before.
Proof.
  unfold _load_pipeline. intros H.
  apply load_pipeline_loop_spec in H as (_ & _ & _ & _ & _ & Hfail).
  destruct (Hfail f eq_refl)
    as (before & name & after & e & fs0 & Hn & -> & _ & Hw & Hk).
  exists before, name, after, e, fs0. repeat split; auto.
  intros k Hin. destruct (Hk k Hin) as [[]|H]. exact H.
Qed.

Lemma load_pipeline_loop_complete (dir : Path) (names : list string) :
  (forall p fs0 w fs1 q,
     pipeline_wrapper E p fs0 = (inr w, fs1) ->
     is_dir E q fs1 = is_dir E q fs0) ->
  forall st st',
    load_pipeline_loop E dir names st = (inr tt, st') ->
    forall k,
      In k (dict_keys (pipelines st')) <->
      In k (dict_keys (pipelines st))
      \/ (In k names /\ is_dir E (path_join dir k) (fs st) = true).
Proof.
  intros Hstable.
  induction names as [|name rest IH]; intros st st'.
  - intros [= <-] k. cbn. tauto.
  - cbn [load_pipeline_loop].
    destruct (is_dir E (path_join dir name) (fs st)) eqn:Hdir.
    + destruct (pipeline_wrapper E (path_join dir name) (fs st))
        as [[e|wrapper] fs'] eqn:Hwrap; [discriminate|].
      intros Hrun k. rewrite (IH _ _ Hrun k). cbn [pipelines fs].
      rewrite dict_keys_set_In, (Hstable _ _ _ _ (path_join dir k) Hwrap).
      cbn [In]. split.
      * intros [[H| ->]|[H1 H2]]; auto.
      * intros [H|[[<-|H1] H2]]; auto.
    + intros Hrun k. rewrite (IH _ _ Hrun k). cbn [In]. split.
      * intros [H|[H1 H2]]; auto.
      * intros [H|[[<-|H1] H2]]; auto. congruence.
Qed.

(** X24.  When wrapping a directory does not change which paths are
    directories, a [_load_pipeline] that returns has registered exactly the
    listed entries that are directories. *)
Theorem load_pipeline_registers_every_directory
    (root_dir : Path) (st st' : State FS PW DW) :
  (forall p fs0 w fs1 q,
     pipeline_wrapper E p fs0 = (inr w, fs1) ->
     is_dir E q fs1 = is_dir E q fs0) ->
  _load_pipeline E root_dir st = (inr tt, st') ->
  forall k,
    In k (dict_keys (pipelines st')) <->
    In k (iterdir E (pipeline_dir root_dir) (fs st))
    /\ is_dir E (path_join (pipeline_dir root_dir) k) (fs st) = true.
Proof.
  intros Hstable H k. unfold _load_pipeline in H.
  rewrite (load_pipeline_loop_complete _ _ Hstable _ _ H k).
  cbn [pipelines dict_keys map In fs]. tauto.
Qed.

Lemma load_deployments_loop_frame (dir : Path) (names : list string) :
  forall st r st',
    load_deployments_loop E dir names st = (r, st') ->
    pipelines st' = pipelines st
    /\ made st' = made st
    /\ log st' = log st
    /\ (forall f, r = inl f -> exists e, f = Builtin e)
    /\ forall k, In k (dict_keys (deployments st')) ->
                 In k (dict_keys (deployments st)) \/ In k names.
Proof.
  induction names as [|name rest IH]; intros st r st'.
  - intros [= <- <-]. repeat split; auto. discriminate.
  - cbn [load_deployments_loop].
    destruct (is_dir E (path_join dir name) (fs st)).
    + destruct (deployment_wrapper E (path_join dir name) (fs st))
        as [[e|wrapper] fs'].
      * intros [= <- <-]. cbn. repeat split; auto.
        intros f [= <-]. now exists e.
      * intros Hrun. apply IH in Hrun as (Hp & Hm & Hl & Hf & Hkeys).
        cbn [deployments made log pipelines] in *. repeat split; auto.
        intros k Hk. destruct (Hkeys k Hk) as [H|H]; [|right; now right].
        apply dict_keys_set_In in H as [H| ->]; [now left|]. right. now left.
    + intros Hrun. apply IH in Hrun as (Hp & Hm & Hl & Hf & Hkeys).
      repeat split; auto.
      intros k Hk. destruct (Hkeys k Hk); [now left | right; now right].
Qed.

Lemma make_data_dirs_spec (wrapper : DW) (names : list string) :
  forall st r st',
    make_data_dirs E wrapper names st = (r, st') ->
    pipelines st' = pipelines st
    /\ deployments st' = deployments st
    /\ log st' = log st
    /\ (forall f, r = inl f -> exists e, f = Builtin e)
    /\ (r = inr tt ->
        made st' = made st ++ map (get_pipeline_data_dir E wrapper) names).
Proof.
  induction names as [|name rest IH]; intros st r st'.
  - intros [= <- <-]. rewrite app_nil_r. repeat split; auto. discriminate.
  - cbn [make_data_dirs].
    destruct (mkdir E (get_pipeline_data_dir E wrapper name) (fs st))
      as [[e|u] fs'].
    + intros [= <- <-]. cbn. repeat split; auto; [|discriminate].
      intros f [= <-]. now exists e.
    + intros Hrun. apply IH in Hrun as (Hp & Hd & Hl & Hf & Hm).
      cbn [pipelines deployments made log] in *. repeat split; auto.
      intros Hr. rewrite (Hm Hr). cbn [map]. now rewrite <- app_assoc.
Qed.

(** X25.  [create_deployment] raises [CreateDeploymentError] in two cases
    only, tested in this order: the deployment directory exists already, or
    a parent is named that is not registered.  In both, the disk and the
    registries are as before and no directory has been made. *)
Theorem create_deployment_refused
    (root_dir name : string) (parent : option string)
    (st st' : State FS PW DW) (msg : string) :
  create_deployment E root_dir name parent st
    = (inl (CreateDeploymentError msg), st') ->
  fs st' = fs st
  /\ pipelines st' = pipelines st
  /\ deployments st' = deployments st
  /\ made st' = made st
  /\ ((path_exists E (path_join (deployments_dir root_dir) name) (fs st) = true
       /\ msg = deployment_exists_msg name)
      \/ (path_exists E (path_join (deployments_dir root_dir) name) (fs st)
          = false
          /\ exists p,
               parent = Some p
               /\ dict_get p (deployments st) = None
               /\ msg = no_parent_msg p)).
Proof.
  unfold create_deployment. cbn [fs pipelines deployments made log].
  destruct (path_exists E _ (fs st)) eqn:Hex.
  { intros [= <- <-]. cbn. repeat split; auto. }
  unfold parent_unknown. cbn [deployments].
  destruct parent as [p|].
  - destruct (dict_get p (deployments st)) eqn:Hp.
    + destruct (deployment_create E _ [] (fs st)) as [[e|wrapper] fs'];
        [discriminate|].
      destruct (make_data_dirs E wrapper _ _) as [[f|u] st1] eqn:Hmk.
      * apply make_data_dirs_spec in Hmk as (_ & _ & _ & Hf & _).
        destruct (Hf f eq_refl) as (e & ->). discriminate.
      * unfold _load_deployments.
        destruct (load_deployments_loop E _ _ _) as [[f|u'] st2] eqn:Hld;
          [|discriminate].
        apply load_deployments_loop_frame in Hld as (_ & _ & _ & Hf & _).
        destruct (Hf f eq_refl) as (e & ->). discriminate.
    + intros [= <- <-]. cbn. repeat split; auto. right.
      split; [reflexivity|]. now exists p.
  - destruct (deployment_create E _ [] (fs st)) as [[e|wrapper] fs'];
      [discriminate|].
    destruct (make_data_dirs E wrapper _ _) as [[f|u] st1] eqn:Hmk.
    + apply make_data_dirs_spec in Hmk as (_ & _ & _ & Hf & _).
      destruct (Hf f eq_refl) as (e & ->). discriminate.
    + unfold _load_deployments.
      destruct (load_deployments_loop E _ _ _) as [[f|u'] st2] eqn:Hld;
        [|discriminate].
      apply load_deployments_loop_frame in Hld as (_ & _ & _ & Hf & _).
      destruct (Hf f eq_refl) as (e & ->). discriminate.
Qed.

(** X26.  A [create_deployment] that returns gives back the wrapper that
    [DeploymentWrapper.create] built for a directory that did not exist,
    has made one data directory of that deployment for every registered
    pipeline, in registry order and no other, and has left the pipeline
    registry as it was. *)
Theorem create_deployment_makes_data_dirs
    (root_dir name : string) (parent : option string)
    (st st' : State FS PW DW) (wrapper : DW) :
  create_deployment E root_dir name parent st = (inr wrapper, st') ->
  path_exists E (path_join (deployments_dir root_dir) name) (fs st) = false
  /\ (exists fs1,
        deployment_create E (path_join (deployments_dir root_dir) name) []
          (fs st) = (inr wrapper, fs1))
  /\ made st'
     = made st
       ++ map (get_pipeline_data_dir E wrapper) (dict_keys (pipelines st))
  /\ pipelines st' = pipelines st
  /\ forall p, parent = Some p -> dict_get p (deployments st) <> None.
Proof.
  unfold create_deployment. cbn [fs pipelines deployments made log].
  destruct (path_exists E _ (fs st)) eqn:Hex; [discriminate|].
  destruct (parent_unknown parent _) eqn:Hparent; [discriminate|].
  destruct (deployment_create E _ [] (fs st)) as [[e|w] fs1] eqn:Hcreate;
    [discriminate|].
  destruct (make_data_dirs E w _ _) as [[f|[]] st1] eqn:Hmk; [discriminate|].
  apply make_data_dirs_spec in Hmk as (Hp & _ & _ & _ & Hmade).
  specialize (Hmade eq_refl). cbn [pipelines made] in *.
  unfold _load_deployments.
  destruct (load_deployments_loop E _ _ _) as [[f|u] st2] eqn:Hld;
    [discriminate|].
  apply load_deployments_loop_frame in Hld as (Hp2 & Hm2 & _ & _ & _).
  cbn [pipelines made] in *.
  intros [= <- <-]. repeat split; auto.
  - now exists fs1.
  - congruence.
  - congruence.
  - intros p ->. unfold parent_unknown in Hparent. cbn [deployments] in Hparent.
    destruct (dict_get p (deployments st)); [discriminate | discriminate].
Qed.

End RegistryFacts.

Lemma load_pipeline_registry_from_disk_witness :
  let st' := snd (Registry._load_pipeline DemoRegistry.env "proj"
                    DemoRegistry.state) in
  Registry.pipelines st'
    = [("camA", "proj/pipelines/camA"); ("camB", "proj/pipelines/camB")]
  /\ (forall k, In k (dict_keys (Registry.pipelines st')) ->
                In k ["camA"; "notes.txt"; "camB"])
  /\ NoDup (dict_keys (Registry.pipelines st'))
  /\ Registry.deployments st' = Registry.deployments DemoRegistry.state.
Proof.
  split; [reflexivity|].
  exact (load_pipeline_registry_from_disk DemoRegistry.env "proj"
           DemoRegistry.state _ _ eq_refl).
Defined.

Lemma load_pipeline_registers_every_directory_witness :
  In "notes.txt"
     (dict_keys
        (Registry.pipelines
           (snd (Registry._load_pipeline DemoRegistry.env "proj"
                   DemoRegistry.state)))) <->
  In "notes.txt" ["camA"; "notes.txt"; "camB"]
  /\ Registry.is_dir DemoRegistry.env
       (path_join (Registry.pipeline_dir "proj") "notes.txt")
       (Registry.fs DemoRegistry.state) = true.
Proof.
  apply (load_pipeline_registers_every_directory DemoRegistry.env "proj"
           DemoRegistry.state
           (snd (Registry._load_pipeline DemoRegistry.env "proj"
                   DemoRegistry.state))).
  - intros p fs0 w fs1 q. unfold DemoRegistry.env, DemoRegistry.wrap.
    cbn [Registry.pipeline_wrapper Registry.is_dir].
    destruct (DemoRegistry.is_broken p); [discriminate|].
    now intros [= _ <-].
  - reflexivity.
Defined.

Lemma load_pipeline_failure_leaves_prefix_witness :
  let st' := snd (Registry._load_pipeline DemoRegistry.env "lab"
                    DemoRegistry.lab) in
  Registry.pipelines st' = [("camA", "lab/pipelines/camA")]
  /\ exists before name after e fs0,
       Registry.iterdir DemoRegistry.env (Registry.pipeline_dir "lab")
         (Registry.fs DemoRegistry.lab) = before ++ name :: after
       /\ Registry.Builtin
            (Raise OtherException
               (quoted "lab/pipelines/broken/repo"
                ++ " does not exist or is not a directory."))
          = Registry.Builtin e
       /\ Registry.pipeline_wrapper DemoRegistry.env
            (path_join (Registry.pipeline_dir "lab") name) fs0
          = (inl e, Registry.fs st')
       /\ forall k, In k (dict_keys (Registry.pipelines st')) -> In k before.
Proof.
  split; [reflexivity|].
  exact (load_pipeline_failure_leaves_prefix DemoRegistry.env "lab"
           DemoRegistry.lab _ _ eq_refl).
Defined.

(** Reloading deployments where [broken] cannot be wrapped: the exception
    passes through and only [dep1] is left registered. *)
Example load_deployments_demo :
  let run := Registry._load_deployments DemoRegistry.env "proj"
               DemoRegistry.state in
  fst run
    = inl (Registry.Builtin
             (Raise OtherException
                (quoted "proj/deployments/broken/repo"
                 ++ " does not exist or is not a directory.")))
  /\ Registry.deployments (snd run) = [("dep1", "proj/deployments/dep1")].
Proof. split; reflexivity. Qed.

Lemma create_deployment_refused_witness :
  let st' := snd (Registry.create_deployment DemoRegistry.env "site" "dep2"
                    (Some "dep0") DemoRegistry.site) in
  Registry.fs st' = Registry.fs DemoRegistry.site
  /\ Registry.pipelines st' = Registry.pipelines DemoRegistry.site
  /\ Registry.deployments st' = Registry.deployments DemoRegistry.site
  /\ Registry.made st' = Registry.made DemoRegistry.site
  /\ ((Registry.path_exists DemoRegistry.env
         (path_join (Registry.deployments_dir "site") "dep2")
         (Registry.fs DemoRegistry.site) = true
       /\ Registry.no_parent_msg "dep0" = Registry.deployment_exists_msg "dep2")
      \/ (Registry.path_exists DemoRegistry.env
            (path_join (Registry.deployments_dir "site") "dep2")
            (Registry.fs DemoRegistry.site) = false
          /\ exists p,
               Some "dep0" = Some p
               /\ dict_get p (Registry.deployments DemoRegistry.site) = None
               /\ Registry.no_parent_msg "dep0" = Registry.no_parent_msg p)).
Proof.
  exact (create_deployment_refused DemoRegistry.env "site" "dep2"
           (Some "dep0") DemoRegistry.site _ _ eq_refl).
Defined.

Lemma create_deployment_makes_data_dirs_witness :
  let st' := snd (Registry.create_deployment DemoRegistry.env "site" "dep3"
                    (Some "dep1") DemoRegistry.site) in
  Registry.path_exists DemoRegistry.env
    (path_join (Registry.deployments_dir "site") "dep3")
    (Registry.fs DemoRegistry.site) = false
  /\ (exists fs1,
        Registry.deployment_create DemoRegistry.env
          (path_join (Registry.deployments_dir "site") "dep3") []
          (Registry.fs DemoRegistry.site)
        = (inr "site/deployments/dep3", fs1))
  /\ Registry.made st'
     = Registry.made DemoRegistry.site
       ++ map (Registry.get_pipeline_data_dir DemoRegistry.env
                 "site/deployments/dep3")
              (dict_keys (Registry.pipelines DemoRegistry.site))
  /\ Registry.pipelines st' = Registry.pipelines DemoRegistry.site
  /\ forall p, Some "dep1" = Some p ->
               dict_get p (Registry.deployments DemoRegistry.site) <> None.
Proof.
  exact (create_deployment_makes_data_dirs DemoRegistry.env "site" "dep3"
           (Some "dep1") DemoRegistry.site _ "site/deployments/dep3" eq_refl).
Defined.

(** The same creation, evaluated: two data directories, and the registry
    reloaded from the disk now holds [dep1] and [dep3]. *)
Example create_deployment_demo :
  let run := Registry.create_deployment DemoRegistry.env "site" "dep3"
               (Some "dep1") DemoRegistry.site in
  fst run = inr "site/deployments/dep3"
  /\ Registry.made (snd run)
     = ["site/deployments/dep3/camA"; "site/deployments/dep3/camB"]
  /\ Registry.deployments (snd run)
     = [("dep1", "site/deployments/dep1"); ("dep3", "site/deployments/dep3")].
Proof. repeat split. Qed.
